(** * pesos: the framework-side scheduler driver

    A shallow embedding of [pesos/scheduler.py]: the [SchedulerProcess] actor
    (connection flags, offer table, slave cache, message handlers, commands)
    and the [PesosSchedulerDriver] facade (lifecycle status), followed by the
    properties checked against the written specification.

    Conventions of the embedding.
    - A Python method of the process is a computation in the monad [M]: it
      reads and updates the process record and either returns or raises.  The
      record reached when an exception is raised is kept: Python does not roll
      back the mutations made before the [raise].
    - What leaves the process (a message handed to [send], a callback made
      through [camel_call], a [context.delay] or [context.dispatch], a line
      written to the log) is appended, in order, to the [events] of the
      record.  User callbacks are opaque: only the call is recorded.  The
      [timed] context manager around each callback only writes a debug line
      with the elapsed time and is left out.
    - Python integers are [Z]; dictionaries are [gmap]s. *)

From Stdlib Require Import ZArith Lia.
From stdpp Require Import gmap strings list fin_maps.

Local Open Scope string_scope.

(** ** Addresses and protobuf values *)

(** An actor address of the runtime ([compactor.pid.PID]): compared by value. *)
Record PID := mkPID { pid_id : string; pid_ip : string; pid_port : Z }.

#[global] Instance PID_eq_dec : EqDecision PID.
Proof. solve_decision. Defined.

Record FrameworkID := mkFrameworkID { FrameworkID_value : string }.
Record OfferID := mkOfferID { OfferID_value : string }.
Record SlaveID := mkSlaveID { SlaveID_value : string }.
Record TaskID := mkTaskID { TaskID_value : string }.
Record ExecutorID := mkExecutorID { ExecutorID_value : string }.

#[global] Instance FrameworkID_eq_dec : EqDecision FrameworkID.
Proof. solve_decision. Defined.
#[global] Instance SlaveID_eq_dec : EqDecision SlaveID.
Proof. solve_decision. Defined.

(** [FrameworkInfo]: an optional message field is an [option]
    ([HasField] is [is_Some]); reading through an unset field gives the
    default of the inner field. *)
Record FrameworkInfo := mkFrameworkInfo {
  fw_id : option FrameworkID;
  fw_user : string;
  fw_hostname : string
}.

(** [framework.id]: the sub-message, default-valued when the field is unset. *)
Definition framework_id (f : FrameworkInfo) : FrameworkID :=
  default (mkFrameworkID "") (fw_id f).

(** [framework.id.value = v] *)
Definition set_framework_id_value (v : string) (f : FrameworkInfo) : FrameworkInfo :=
  {| fw_id := Some (mkFrameworkID v); fw_user := fw_user f; fw_hostname := fw_hostname f |}.

Record ExecutorInfo := mkExecutorInfo {
  ex_executor_id : ExecutorID;
  ex_framework_id : option FrameworkID
}.

Record CommandInfo := mkCommandInfo { CommandInfo_value : string }.

Record TaskInfo := mkTaskInfo {
  task_id : TaskID;
  task_slave_id : SlaveID;
  task_executor : option ExecutorInfo;
  task_command : option CommandInfo
}.

Record Offer := mkOffer { offer_id : OfferID; offer_slave_id : SlaveID }.

Record Filters := mkFilters { Filters_repr : string }.

Inductive TaskState := TASK_STAGING | TASK_STARTING | TASK_RUNNING
                     | TASK_FINISHED | TASK_FAILED | TASK_KILLED | TASK_LOST.

Record TaskStatus := mkTaskStatus {
  status_task_id : TaskID;
  status_state : TaskState;
  status_message : string
}.

Record StatusUpdate := mkStatusUpdate {
  update_framework_id : FrameworkID;
  update_status : TaskStatus;
  update_slave_id : SlaveID;
  update_uuid : string
}.

(** ** Messages of the wire protocol *)

(** Messages the master (or an executor) sends to the process: the types the
    handlers are installed for. *)
Inductive inbound :=
| FrameworkRegisteredMessage (framework_id : FrameworkID) (master_info : string)
| FrameworkReregisteredMessage (framework_id : FrameworkID) (master_info : string)
| ResourceOffersMessage (offers : list Offer) (pids : list string)
| RescindResourceOfferMessage (offer_id : OfferID)
| StatusUpdateMessage (update : StatusUpdate)
| LostSlaveMessage (slave_id : SlaveID)
| ExecutorToFrameworkMessage (executor_id : ExecutorID) (slave_id : SlaveID) (data : string)
| FrameworkErrorMessage (message : string).

(** Messages the process hands to [send]. *)
Inductive outbound :=
| RegisterFrameworkMessage (framework : FrameworkInfo)
| ReregisterFrameworkMessage (framework : FrameworkInfo) (failover : bool)
| UnregisterFrameworkMessage (framework_id : FrameworkID)
| LaunchTasksMessage (framework_id : FrameworkID) (tasks : list TaskInfo)
                     (filters : Filters) (offer_ids : list OfferID)
| KillTaskMessage (framework_id : FrameworkID) (task_id : TaskID)
| ResourceRequestMessage (framework_id : FrameworkID) (requests : string)
| ReviveOffersMessage (framework_id : FrameworkID)
| ReconcileTasksMessage (framework_id : FrameworkID) (statuses : string)
| FrameworkToExecutorMessage (framework_id : FrameworkID) (executor_id : ExecutorID)
                             (slave_id : SlaveID) (data : string)
| StatusUpdateAcknowledgementMessage (framework_id : FrameworkID) (slave_id : SlaveID)
                                     (task_id : TaskID) (uuid : string)
| StatusUpdateProto (framework_id : FrameworkID) (status : TaskStatus).

(** The callbacks of the user's scheduler object, as [camel_call] names them. *)
Inductive callback :=
| registered_cb (framework_id : FrameworkID) (master_info : string)
| reregistered_cb (master_info : string)
| disconnected_cb
| resource_offers_cb (offers : list Offer)
| offer_rescinded_cb (offer_id : OfferID)
| status_update_cb (status : TaskStatus)
| slave_lost_cb (slave_id : SlaveID)
| framework_message_cb (executor_id : ExecutorID) (slave_id : SlaveID) (data : string)
| error_cb (message : string).

(** Methods the process schedules on itself through the runtime. *)
Inductive selfcall :=
| call_detect
| call_do_registration (backoff : Z).

Inductive loglevel := INFO | WARNING | ERROR.

Inductive event :=
| Log (level : loglevel) (format : string)
| Send (to : option PID) (m : outbound)
| Link (to : PID)
| DetectorDetect (previous : option PID)
| Dispatch (c : selfcall)
| Delay (seconds : Z) (c : selfcall)
| Callback (cb : callback).

(** ** Python dictionaries keyed by objects of different types

    [saved_slaves] is a plain [dict].  The source writes and pops it with the
    string [slave_id.value] and reads it in [send_framework_message] with the
    [SlaveID] message itself, so the key type holds both. *)
Inductive pykey :=
| KStr (s : string)
| KSlaveID (m : SlaveID).

#[global] Instance pykey_eq_dec : EqDecision pykey.
Proof. solve_decision. Defined.

#[global] Instance pykey_countable : Countable pykey.
Proof.
  refine (inj_countable'
    (fun k => match k with KStr s => inl s | KSlaveID m => inr (SlaveID_value m) end)
    (fun x => match x with inl s => KStr s | inr v => KSlaveID (mkSlaveID v) end) _).
  intros [s | [v]]; reflexivity.
Defined.

Inductive exn :=
| NameError (name : string)
| KeyError (key : pykey)
| TypeError (what : string)
| ValueError (what : string)
| AssertionError.

(** The ways a call can end: it returns a value, raises, or (for the driver's
    [join]) waits on the condition variable for another thread. *)
Inductive result (A : Type) :=
| Returns (a : A)
| Raises (e : exn)
| Blocks.
Arguments Returns {A} a.
Arguments Raises {A} e.
Arguments Blocks {A}.

(** ** The monad of methods

    A method of an object whose fields are a record [S]. *)
Definition Py (S A : Type) : Type := S -> result A * S.

Definition ret {S A} (a : A) : Py S A := fun s => (Returns a, s).
Definition bind {S A B} (c : Py S A) (k : A -> Py S B) : Py S B :=
  fun s => match c s with
           | (Returns a, s') => k a s'
           | (Raises e, s') => (Raises e, s')
           | (Blocks, s') => (Blocks, s')
           end.
Definition raise {S A} (e : exn) : Py S A := fun s => (Raises e, s).
Definition get {S} : Py S S := fun s => (Returns s, s).
Definition modify {S} (f : S -> S) : Py S unit := fun s => (Returns tt, f s).

#[global] Instance Py_ret {S} : MRet (Py S) := @ret S.
#[global] Instance Py_bind {S} : MBind (Py S) := fun A B k c => bind c k.

(** The record a call leaves behind, and how the call ended. *)
Definition exec {S A} (c : Py S A) (s : S) : S := snd (c s).
Definition outcome {S A} (c : Py S A) (s : S) : result A := fst (c s).

(** A property of the record that a call keeps, however the call ends. *)
Definition preserves {S A} (P : S -> Prop) (c : Py S A) : Prop :=
  forall s, P s -> P (exec c s).

(** [assert c] *)
Definition assert {S} (c : bool) : Py S unit :=
  if c then mret tt else raise AssertionError.

(** [for x in xs: body x] *)
Fixpoint for_each {S A} (xs : list A) (body : A -> Py S unit) : Py S unit :=
  match xs with
  | [] => mret tt
  | x :: xs' => body x ;; for_each xs' body
  end.

(** A loop whose body may change the element it visits in place (the list
    itself is not restructured). *)
Fixpoint for_each_update {S A} (xs : list A) (body : A -> Py S A) : Py S (list A) :=
  match xs with
  | [] => mret []
  | x :: xs' => x' ← body x; rest ← for_each_update xs' body; mret (x' :: rest)
  end.

(** [zip]: pairs up to the shorter of the two lists. *)
Fixpoint zip {A B} (xs : list A) (ys : list B) : list (A * B) :=
  match xs, ys with
  | x :: xs', y :: ys' => (x, y) :: zip xs' ys'
  | _, _ => []
  end.

(** ** The scheduler process *)

Module SchedulerProcess.

Definition MASTER_DETECTION_RETRY_SECONDS : Z := 10.
Definition MASTER_INITIAL_BACKOFF_SECONDS : Z := 2.
Definition MASTER_MAX_BACKOFF_SECONDS : Z := 60.

(** The fields of a [SchedulerProcess] that its methods read or write, and
    the events it has emitted so far. *)
Record t := mk {
  pid : PID;
  framework : FrameworkInfo;
  master : option PID;
  connected : bool;
  aborted : bool;
  failover : bool;
  saved_offers : gmap string (gmap string PID);
  saved_slaves : gmap pykey PID;
  events : list event
}.

(** [__init__]: no master, flags clear except [failover], which is set when
    the framework already carries an id; empty tables. *)
Definition init (p : PID) (fw : FrameworkInfo) : t :=
  {| pid := p; framework := fw; master := None;
     connected := false; aborted := false;
     failover := bool_decide (is_Some (fw_id fw));
     saved_offers := ∅; saved_slaves := ∅; events := [] |}.

Definition set_framework (x : FrameworkInfo) (s : t) : t :=
  mk (pid s) x (master s) (connected s) (aborted s) (failover s)
     (saved_offers s) (saved_slaves s) (events s).
Definition set_master (x : option PID) (s : t) : t :=
  mk (pid s) (framework s) x (connected s) (aborted s) (failover s)
     (saved_offers s) (saved_slaves s) (events s).
Definition set_connected (x : bool) (s : t) : t :=
  mk (pid s) (framework s) (master s) x (aborted s) (failover s)
     (saved_offers s) (saved_slaves s) (events s).
Definition set_aborted (x : bool) (s : t) : t :=
  mk (pid s) (framework s) (master s) (connected s) x (failover s)
     (saved_offers s) (saved_slaves s) (events s).
Definition set_failover (x : bool) (s : t) : t :=
  mk (pid s) (framework s) (master s) (connected s) (aborted s) x
     (saved_offers s) (saved_slaves s) (events s).
Definition set_saved_offers (x : gmap string (gmap string PID)) (s : t) : t :=
  mk (pid s) (framework s) (master s) (connected s) (aborted s) (failover s)
     x (saved_slaves s) (events s).
Definition set_saved_slaves (x : gmap pykey PID) (s : t) : t :=
  mk (pid s) (framework s) (master s) (connected s) (aborted s) (failover s)
     (saved_offers s) x (events s).
Definition set_events (x : list event) (s : t) : t :=
  mk (pid s) (framework s) (master s) (connected s) (aborted s) (failover s)
     (saved_offers s) (saved_slaves s) x.

Abbreviation M := (Py t).

Definition emit (e : event) : M unit :=
  modify (fun s => set_events (events s ++ [e]) s).
Definition log (level : loglevel) (format : string) : M unit := emit (Log level format).
Definition send (to : option PID) (m : outbound) : M unit := emit (Send to m).
Definition camel_call (cb : callback) : M unit := emit (Callback cb).

(** *** Names bound at module level

    The names the module's imports, assignments and class statements bind.
    A global that is not among them (and is no builtin) raises [NameError]
    when it is evaluated. *)
Definition module_globals : list string :=
  [ "defaultdict"; "getuser"; "functools"; "logging"; "threading"; "time";
    "socket"; "sys"; "MasterDetector"; "camel_call"; "timed"; "unique_suffix";
    "mesos_pb2"; "internal"; "Context"; "PID"; "Process"; "ProtobufProcess";
    "SchedulerDriver"; "log"; "SchedulerProcess"; "PesosSchedulerDriver" ].

Definition global (name : string) : M unit :=
  if existsb (String.eqb name) module_globals then mret tt else raise (NameError name).

(** *** Guards *)

(** The decorator [ignore_if_aborted], applied to a method whose arguments are
    already supplied. *)
Definition ignore_if_aborted (method : M unit) : M unit :=
  s ← get;
  if aborted s
  then log INFO "Ignoring message from %s because the scheduler driver is aborted."
  else method.

Definition ignore_if_disconnected (method : M unit) : M unit :=
  s ← get;
  if negb (connected s)
  then log INFO "Ignoring message from because the scheduler driver is disconnected."
  else method.

Definition valid_origin (from_pid : PID) : M bool :=
  s ← get;
  if bool_decide (master s ≠ Some from_pid)
  then log WARNING "Ignoring message from non-leading master %s" ;; mret false
  else mret true.

(** *** Methods

    Two things the methods use are decided outside this file: the parser of
    addresses [PID.from_string] of the actor runtime ([None] when it rejects
    the string) and the hash of a protobuf message, which the protobuf
    runtime defines ([None] when the message type is unhashable). *)
Section Methods.

Variable PID_from_string : string -> option PID.
Variable message_hash : SlaveID -> option Z.

(** The result of [master_future.result()]: the new leader, [None] for no
    leader, or the exception the detector failed with. *)
Inductive future :=
| resolved (master_pid : option PID)
| failed (error : string).

Definition detect : M unit :=
  s ← get;
  emit (DetectorDetect (master s)).

(** [initialize] *)
Definition initialize : M unit := emit (Dispatch call_detect).

Definition _do_registration (backoff : Z) : M unit :=
  s ← get;
  if connected s || bool_decide (master s = None)
  then log INFO "Skipping registration because we are either connected or there is no appointed master."
  else
    (if String.eqb (FrameworkID_value (framework_id (framework s))) ""
     then log INFO "Registering framework: %s" ;;
          send (master s) (RegisterFrameworkMessage (framework s))
     else log INFO "Reregistering framework: %s" ;;
          send (master s) (ReregisterFrameworkMessage (framework s) (failover s))) ;;
    emit (Delay backoff
            (call_do_registration (Z.max (backoff * 2) MASTER_MAX_BACKOFF_SECONDS))).

Definition detected (master_future : future) : M unit :=
  ignore_if_aborted (
    match master_future with
    | failed _ =>
        log WARNING "Experienced an error detecting master: %s, retrying..." ;;
        emit (Delay MASTER_DETECTION_RETRY_SECONDS call_detect)
    | resolved master_pid =>
        s ← get;
        (if connected s
         then modify (set_connected false) ;; camel_call disconnected_cb
         else mret tt) ;;
        match master_pid with
        | Some p =>
            log INFO "New master detected: %s" ;;
            modify (set_master (Some p)) ;;
            emit (Link p)
        | None =>
            log INFO "Master disconnected." ;;
            modify (set_master None)
        end ;;
        _do_registration MASTER_INITIAL_BACKOFF_SECONDS ;;
        log INFO "Setting transition watch from previous master: %s" ;;
        emit (Dispatch call_detect)
    end).

Definition registered (from_pid : PID) (fid : FrameworkID) (master_info : string) : M unit :=
  ignore_if_aborted (
    s ← get;
    if connected s
    then log INFO "Ignoring registered message as we are already connected."
    else
      ok ← valid_origin from_pid;
      if negb ok then mret tt
      else
        modify (fun s => set_framework (set_framework_id_value (FrameworkID_value fid) (framework s)) s) ;;
        modify (set_connected true) ;;
        modify (set_failover false) ;;
        camel_call (registered_cb fid master_info)).

(** The assertion compares [framework.id] with the id of the message by
    value: an id that was never set differs from any id the master sends. *)
Definition reregistered (from_pid : PID) (fid : FrameworkID) (master_info : string) : M unit :=
  ignore_if_aborted (
    s ← get;
    if connected s
    then log INFO "Ignoring registered message as we are already connected."
    else
      ok ← valid_origin from_pid;
      if negb ok then mret tt
      else
        assert (bool_decide (fw_id (framework s) = Some fid)) ;;
        modify (set_connected true) ;;
        modify (set_failover false) ;;
        camel_call (reregistered_cb master_info)).

(** [table[offer_id][slave_id] = p] on a [defaultdict(dict)]: a missing offer
    id gets a fresh inner dictionary first. *)
Definition record_offer (table : gmap string (gmap string PID)) (offer : Offer) (p : PID)
  : gmap string (gmap string PID) :=
  let oid := OfferID_value (offer_id offer) in
  let sid := SlaveID_value (offer_slave_id offer) in
  <[oid := <[sid := p]> (default ∅ (table !! oid))]> table.

(** [self.saved_offers[offer_id][slave_id] = PID.from_string(pid)]: the right
    side is evaluated first. *)
Definition save_offer (op : Offer * string) : M unit :=
  match PID_from_string op.2 with
  | None => raise (ValueError op.2)
  | Some p => modify (fun s => set_saved_offers (record_offer (saved_offers s) op.1 p) s)
  end.

Definition resource_offers (from_pid : PID) (offers : list Offer) (pids : list string) : M unit :=
  ignore_if_disconnected (ignore_if_aborted (
    s ← get;
    assert (bool_decide (master s ≠ None)) ;;
    ok ← valid_origin from_pid;
    if negb ok then mret tt
    else
      for_each (zip offers pids) save_offer ;;
      camel_call (resource_offers_cb offers))).

Definition rescind_offer (from_pid : PID) (oid : OfferID) : M unit :=
  ignore_if_disconnected (ignore_if_aborted (
    s ← get;
    assert (bool_decide (master s ≠ None)) ;;
    ok ← valid_origin from_pid;
    if negb ok then mret tt
    else
      log INFO "Rescinding offer %s" ;;
      s ← get;
      let popped := saved_offers s !! OfferID_value oid in
      modify (fun s => set_saved_offers (delete (OfferID_value oid) (saved_offers s)) s) ;;
      (if bool_decide (popped = None ∨ popped = Some ∅)
       then log WARNING "Offer %s not found."
       else mret tt) ;;
      camel_call (offer_rescinded_cb oid))).

Definition status_update_acknowledgement (update : StatusUpdate) (to : option PID) : M unit :=
  ignore_if_aborted (
    s ← get;
    send to (StatusUpdateAcknowledgementMessage
               (framework_id (framework s))
               (update_slave_id update)
               (status_task_id (update_status update))
               (update_uuid update))).

(** [if self.master:] holds for any address: only [None] is false. *)
Definition status_update (from_pid : PID) (update : StatusUpdate) : M unit :=
  ignore_if_disconnected (ignore_if_aborted (
    ok ← valid_origin from_pid;
    if negb ok then mret tt
    else
      s ← get;
      (if bool_decide (is_Some (master s))
       then status_update_acknowledgement update (master s)
       else mret tt) ;;
      camel_call (status_update_cb (update_status update)))).

(** [d.pop(key)] without a default: [KeyError] when the key is missing. *)
Definition pop_saved_slaves (key : pykey) : M PID :=
  s ← get;
  match saved_slaves s !! key with
  | Some p => modify (fun s => set_saved_slaves (delete key (saved_slaves s)) s) ;; mret p
  | None => raise (KeyError key)
  end.

Definition lost_slave (from_pid : PID) (sid : SlaveID) : M unit :=
  ignore_if_disconnected (ignore_if_aborted (
    s ← get;
    assert (bool_decide (master s ≠ None)) ;;
    ok ← valid_origin from_pid;
    if negb ok then mret tt
    else
      pop_saved_slaves (KStr (SlaveID_value sid)) ;;
      camel_call (slave_lost_cb sid))).

Definition framework_message (from_pid : PID) (eid : ExecutorID) (sid : SlaveID) (data : string)
  : M unit :=
  ignore_if_aborted (camel_call (framework_message_cb eid sid data)).

Definition error (from_pid : PID) (message : string) : M unit :=
  ignore_if_aborted (camel_call (error_cb message)).

Definition stop (failover_arg : bool) : M unit :=
  ignore_if_aborted (
    if negb failover_arg
    then
      modify (set_connected false) ;;
      modify (set_failover true) ;;
      s ← get;
      send (master s) (UnregisterFrameworkMessage (framework_id (framework s)))
    else mret tt).

(** [abort] is declared with no parameter besides [self], under
    [ignore_if_aborted], whose wrapper binds the caller's first positional
    argument to [from_pid] and passes it on to the method.  [args] are the
    positional arguments of the call; the driver dispatches ['abort'] with
    none. *)
Definition abort_method (args : list string) : M unit :=
  match args with
  | [] => modify (set_connected false) ;; modify (set_aborted true)
  | _ :: _ => raise (TypeError "abort() takes exactly 1 argument")
  end.

Definition abort (args : list string) : M unit :=
  match args with
  | [] => raise (TypeError "_wrapper() takes at least 2 arguments")
  | from_pid :: rest => ignore_if_aborted (abort_method (from_pid :: rest))
  end.

Definition kill_task (tid : TaskID) : M unit :=
  ignore_if_disconnected (
    s ← get;
    assert (bool_decide (master s ≠ None)) ;;
    send (master s) (KillTaskMessage (framework_id (framework s)) tid)).

Definition request_resources (requests : string) : M unit :=
  ignore_if_disconnected (
    s ← get;
    assert (bool_decide (master s ≠ None)) ;;
    send (master s) (ResourceRequestMessage (framework_id (framework s)) requests)).

(** [_local_lost]: the names are evaluated in the order of the source text
    ([mesos_pb2.StatusUpdate], then the arguments [mesos.TaskStatus],
    [mesos.TASK_LOST], [now], [uuid.uuid4]) before anything is sent. *)
Definition _local_lost (task : TaskInfo) (reason : string) : M unit :=
  global "mesos_pb2" ;;
  s ← get;
  global "mesos" ;;
  global "mesos" ;;
  global "now" ;;
  global "uuid" ;;
  send (Some (pid s))
       (StatusUpdateProto (framework_id (framework s))
                          (mkTaskStatus (task_id task) TASK_LOST reason)).

(** The body of the sanity-checking loop of [launch_tasks] for one task.
    [continue] ends the body for this task only: the task stays in [tasks].
    The last case writes [executor.framework_id] into the caller's task. *)
Definition check_task (task : TaskInfo) : M TaskInfo :=
  s ← get;
  if bool_decide (is_Some (task_executor task) ↔ is_Some (task_command task))
  then _local_lost task "Malformed: A task must have either an executor or command" ;;
       mret task
  else
    match task_executor task with
    | Some ex =>
        match ex_framework_id ex with
        | Some fid =>
            if negb (String.eqb (FrameworkID_value fid)
                                (FrameworkID_value (framework_id (framework s))))
            then _local_lost task "Malformed: Executor has an invalid framework ID" ;;
                 mret task
            else mret task
        | None =>
            mret (mkTaskInfo (task_id task) (task_slave_id task)
                    (Some (mkExecutorInfo (ex_executor_id ex)
                             (Some (mkFrameworkID
                                      (FrameworkID_value (framework_id (framework s)))))))
                    (task_command task))
        end
    | None => mret task
    end.

(** The inner loop of [launch_tasks] for one offer id and one task. *)
Definition promote_slave (oid : OfferID) (task : TaskInfo) : M unit :=
  s ← get;
  match saved_offers s !! OfferID_value oid with
  | Some slaves =>
      match slaves !! SlaveID_value (task_slave_id task) with
      | Some p =>
          modify (fun s =>
            set_saved_slaves
              (<[KStr (SlaveID_value (task_slave_id task)) := p]> (saved_slaves s)) s)
      | None => log WARNING "Attempting to launch task %s with the wrong slave %s"
      end
  | None => log WARNING "Attempting to launch task %s with an unknown offer %s"
  end.

(** [self.saved_offers.pop(offer_id.value)]: no default is given, so a missing
    key raises [KeyError] ([pop] does not call the default factory). *)
Definition pop_saved_offers (key : string) : M (gmap string PID) :=
  s ← get;
  match saved_offers s !! key with
  | Some slaves =>
      modify (fun s => set_saved_offers (delete key (saved_offers s)) s) ;; mret slaves
  | None => raise (KeyError (KStr key))
  end.

(** The outer loop of [launch_tasks] for one offer id. *)
Definition consume_offer (tasks : list TaskInfo) (oid : OfferID) : M unit :=
  for_each tasks (promote_slave oid) ;;
  pop_saved_offers (OfferID_value oid) ;;
  mret tt.

Definition launch_tasks (offer_ids : list OfferID) (tasks : list TaskInfo)
    (filters : option Filters) : M unit :=
  s ← get;
  if negb (connected s)
  then for_each tasks (fun task => _local_lost task "Master Disconnected")
  else
    let filters := default (mkFilters "") filters in
    tasks ← for_each_update tasks check_task;
    s ← get;
    let message := LaunchTasksMessage (framework_id (framework s)) tasks filters offer_ids in
    for_each offer_ids (consume_offer tasks) ;;
    s ← get;
    send (master s) message.

Definition revive_offers : M unit :=
  ignore_if_disconnected (
    s ← get;
    assert (bool_decide (master s ≠ None)) ;;
    send (master s) (ReviveOffersMessage (framework_id (framework s)))).

(** [self.saved_slaves[slave_id]]: the key is the [SlaveID] message the caller
    passed (the same object fills the message-typed field [slave_id] of the
    [FrameworkToExecutorMessage] below).  Looking a key up hashes it first; a
    missing key raises [KeyError], which the method catches. *)
Definition send_framework_message (eid : ExecutorID) (sid : SlaveID) (data : string) : M unit :=
  ignore_if_disconnected (
    s ← get;
    match message_hash sid with
    | None => raise (TypeError "unhashable object")
    | Some _ =>
        to ← match saved_slaves s !! KSlaveID sid with
             | Some p => mret (Some p)
             | None =>
                 log WARNING "Cannot send directly to slave %s, sending through master" ;;
                 mret (master s)
             end;
        send to (FrameworkToExecutorMessage (framework_id (framework s)) eid sid data)
    end).

Definition reconcile_tasks (statuses : string) : M unit :=
  ignore_if_disconnected (
    s ← get;
    assert (bool_decide (master s ≠ None)) ;;
    send (master s) (ReconcileTasksMessage (framework_id (framework s)) statuses)).

(** *** Dispatch *)

(** A message arriving at the process runs the handler installed for its
    type. *)
Definition receive (from_pid : PID) (m : inbound) : M unit :=
  match m with
  | FrameworkRegisteredMessage fid info => registered from_pid fid info
  | FrameworkReregisteredMessage fid info => reregistered from_pid fid info
  | ResourceOffersMessage offers pids => resource_offers from_pid offers pids
  | RescindResourceOfferMessage oid => rescind_offer from_pid oid
  | StatusUpdateMessage update => status_update from_pid update
  | LostSlaveMessage sid => lost_slave from_pid sid
  | ExecutorToFrameworkMessage eid sid data => framework_message from_pid eid sid data
  | FrameworkErrorMessage message => error from_pid message
  end.

(** Everything the runtime can make the process do: deliver a message, or
    call one of its methods (dispatched by the driver, by a timer, by the
    detector's future, or by the process itself). *)
Inductive command :=
| Initialize
| Detect
| Detected (master_future : future)
| DoRegistration (backoff : Z)
| Receive (from_pid : PID) (m : inbound)
| StatusUpdateAcknowledgement (update : StatusUpdate) (to : option PID)
| Stop (failover_arg : bool)
| Abort (args : list string)
| KillTask (tid : TaskID)
| RequestResources (requests : string)
| LaunchTasks (offer_ids : list OfferID) (tasks : list TaskInfo) (filters : option Filters)
| ReviveOffers
| SendFrameworkMessage (eid : ExecutorID) (sid : SlaveID) (data : string)
| ReconcileTasks (statuses : string).

Definition run (c : command) : M unit :=
  match c with
  | Initialize => initialize
  | Detect => detect
  | Detected f => detected f
  | DoRegistration backoff => _do_registration backoff
  | Receive from_pid m => receive from_pid m
  | StatusUpdateAcknowledgement update to => status_update_acknowledgement update to
  | Stop f => stop f
  | Abort args => abort args
  | KillTask tid => kill_task tid
  | RequestResources requests => request_resources requests
  | LaunchTasks offer_ids tasks filters => launch_tasks offer_ids tasks filters
  | ReviveOffers => revive_offers
  | SendFrameworkMessage eid sid data => send_framework_message eid sid data
  | ReconcileTasks statuses => reconcile_tasks statuses
  end.

(** *** Runs *)

(** The process after the runtime made it run the commands in turn. *)
Definition run_all (cs : list command) (s : t) : t :=
  foldl (fun s c => exec (run c) s) s cs.

(** The registration attempts of a process that nothing else touches: the
    first is [_do_registration backoff]; each next one is the delayed call the
    previous attempt handed to [context.delay], fired when its delay has
    passed.  The result lists the delays, that is the time between one
    attempt and the next. *)
Fixpoint registration_gaps (attempts : nat) (backoff : Z) (s : t) : list Z :=
  match attempts with
  | O => []
  | S n =>
      let s' := exec (_do_registration backoff) s in
      match last (events s') with
      | Some (Delay seconds (call_do_registration next)) =>
          seconds :: registration_gaps n next s'
      | _ => []
      end
  end.

(** The offer table after recording the given offers, in order, each with
    the address of its slave. *)
Definition record_offers (table : gmap string (gmap string PID)) (ops : list (Offer * PID))
  : gmap string (gmap string PID) :=
  foldl (fun tbl op => record_offer tbl op.1 op.2) table ops.

(** The aborted flag is set. *)
Definition is_aborted (s : t) : Prop := aborted s = true.

(** No key of the slave cache is a [SlaveID] message. *)
Definition string_keyed (s : t) : Prop :=
  forall m, saved_slaves s !! KSlaveID m = None.

(** The messages handed to [send] and the callbacks made, among events. *)
Definition sends (es : list event) : list (option PID * outbound) :=
  omap (fun e => match e with Send to m => Some (to, m) | _ => None end) es.
Definition callbacks (es : list event) : list callback :=
  omap (fun e => match e with Callback cb => Some cb | _ => None end) es.

End Methods.

End SchedulerProcess.

(** ** The driver *)

Module PesosSchedulerDriver.

Inductive Status :=
| DRIVER_NOT_STARTED
| DRIVER_RUNNING
| DRIVER_ABORTED
| DRIVER_STOPPED.

#[global] Instance Status_eq_dec : EqDecision Status.
Proof. solve_decision. Defined.

(** A master detector, as [MasterDetector.from_uri] builds it. *)
Inductive Detector := detector_for (uri : string).

(** What a driver method does besides changing the driver's fields. *)
Inductive effect :=
| Dispatched (c : SchedulerProcess.command)
| Spawned
| Notified
| Logged (level : loglevel) (format : string).

(** The fields of the driver.  [status] holds whatever was last assigned to
    it, [None] being Python's [None]; [scheduler_process] is the process
    object the driver refers to, with the state that object is in.
    [framework] is the object handed to the process at [start]; the driver
    does not read it afterwards. *)
Record t := mk {
  status : option Status;
  scheduler_process : option SchedulerProcess.t;
  detector : option Detector;
  master_uri : string;
  framework : FrameworkInfo;
  effects : list effect
}.

Definition set_status (x : option Status) (d : t) : t :=
  mk x (scheduler_process d) (detector d) (master_uri d) (framework d) (effects d).
Definition set_scheduler_process (x : option SchedulerProcess.t) (d : t) : t :=
  mk (status d) x (detector d) (master_uri d) (framework d) (effects d).
Definition set_detector (x : option Detector) (d : t) : t :=
  mk (status d) (scheduler_process d) x (master_uri d) (framework d) (effects d).
Definition set_effects (x : list effect) (d : t) : t :=
  mk (status d) (scheduler_process d) (detector d) (master_uri d) (framework d) x.

Abbreviation D := (Py t).

Definition emit (e : effect) : D unit :=
  modify (fun d => set_effects (effects d ++ [e]) d).

(** [self.context.dispatch(self.scheduler_process.pid, ...)] *)
Definition dispatch (c : SchedulerProcess.command) : D unit := emit (Dispatched c).

(** [self.lock.notify()] *)
Definition notify : D unit := emit Notified.

(** [__init__]: [fqdn] and [user] are what [socket.getfqdn()] and [getuser()]
    answer. *)
Definition init (fw : FrameworkInfo) (uri fqdn user : string) : t :=
  {| status := Some DRIVER_NOT_STARTED;
     scheduler_process := None;
     detector := None;
     master_uri := uri;
     framework :=
       mkFrameworkInfo (fw_id fw)
         (if String.eqb (fw_user fw) "" then user else fw_user fw)
         (if String.eqb (fw_hostname fw) "" then fqdn else fw_hostname fw);
     effects := [] |}.

(** The methods run under [locked]: one at a time.  Two things are decided
    outside this file: [MasterDetector.from_uri] ([None] when it raises
    [MasterDetector.Error]) and the address the runtime gives the process
    that [start] creates. *)
Section Methods.

Variable from_uri : string -> option Detector.
Variable scheduler_pid : PID.

Definition start : D (option Status) :=
  d ← get;
  if bool_decide (status d ≠ Some DRIVER_NOT_STARTED)
  then mret (status d)
  else
    match from_uri (master_uri d) with
    | None =>
        modify (set_status (Some DRIVER_ABORTED)) ;;
        emit (Logged ERROR "Failed to construct master detector: %s") ;;
        mret None
    | Some det =>
        modify (set_detector (Some det)) ;;
        assert (negb (bool_decide (is_Some (scheduler_process d)))) ;;
        modify (set_scheduler_process
                  (Some (SchedulerProcess.init scheduler_pid (framework d)))) ;;
        emit Spawned ;;
        modify (set_status (Some DRIVER_RUNNING)) ;;
        d ← get;
        mret (status d)
    end.

Definition stop (failover : bool) : D (option Status) :=
  d ← get;
  if negb (bool_decide (status d = Some DRIVER_RUNNING ∨ status d = Some DRIVER_ABORTED))
  then mret (status d)
  else
    (if bool_decide (is_Some (scheduler_process d))
     then dispatch (SchedulerProcess.Stop failover)
     else mret tt) ;;
    let aborted := bool_decide (status d = Some DRIVER_ABORTED) in
    modify (set_status (Some DRIVER_STOPPED)) ;;
    notify ;;
    d ← get;
    mret (if aborted then Some DRIVER_ABORTED else status d).

Definition abort : D (option Status) :=
  d ← get;
  if bool_decide (status d ≠ Some DRIVER_RUNNING)
  then mret (status d)
  else
    match scheduler_process d with
    | None => raise AssertionError
    | Some p =>
        modify (set_scheduler_process (Some (SchedulerProcess.set_aborted true p))) ;;
        dispatch (SchedulerProcess.Abort []) ;;
        modify (set_status (Some DRIVER_ABORTED)) ;;
        notify ;;
        d ← get;
        mret (status d)
    end.

(** [join]: when the status is RUNNING the caller waits on the condition
    variable; what follows the loop runs only after another thread has
    changed the status. *)
Definition join : D (option Status) :=
  d ← get;
  if bool_decide (status d ≠ Some DRIVER_RUNNING)
  then mret (status d)
  else fun d => (Blocks, d).

Definition run : D (option Status) :=
  r ← start;
  modify (set_status r) ;;
  d ← get;
  if bool_decide (status d ≠ Some DRIVER_RUNNING)
  then mret (status d)
  else join.

(** The shape shared by the commands: a status check, the assertion, one
    dispatch. *)
Definition command (c : SchedulerProcess.command) : D (option Status) :=
  d ← get;
  if bool_decide (status d ≠ Some DRIVER_RUNNING)
  then mret (status d)
  else
    assert (bool_decide (is_Some (scheduler_process d))) ;;
    dispatch c ;;
    mret (status d).

Definition requestResources (requests : string) : D (option Status) :=
  command (SchedulerProcess.RequestResources requests).

Definition launchTasks (offer_ids : list OfferID) (tasks : list TaskInfo)
    (filters : option Filters) : D (option Status) :=
  command (SchedulerProcess.LaunchTasks offer_ids tasks filters).

Definition killTask (tid : TaskID) : D (option Status) :=
  command (SchedulerProcess.KillTask tid).

(** [launch_tasks = launchTasks], the alias [declineOffer] calls. *)
Definition launch_tasks := launchTasks.

Definition declineOffer (oid : OfferID) (filters : option Filters) : D (option Status) :=
  launch_tasks [oid] [] filters.

Definition reviveOffers : D (option Status) :=
  command SchedulerProcess.ReviveOffers.

Definition sendFrameworkMessage (eid : ExecutorID) (sid : SlaveID) (data : string)
  : D (option Status) :=
  command (SchedulerProcess.SendFrameworkMessage eid sid data).

Definition reconcileTasks (statuses : string) : D (option Status) :=
  command (SchedulerProcess.ReconcileTasks statuses).

(** The other snake_case aliases. *)
Definition request_resources := requestResources.
Definition kill_task := killTask.
Definition decline_offer := declineOffer.
Definition revive_offers := reviveOffers.
Definition send_framework_message := sendFrameworkMessage.
Definition reconcile_tasks := reconcileTasks.

(** *** The driver and its process together *)

Inductive method :=
| m_start
| m_stop (failover : bool)
| m_abort
| m_join
| m_run
| m_requestResources (requests : string)
| m_launchTasks (offer_ids : list OfferID) (tasks : list TaskInfo) (filters : option Filters)
| m_killTask (tid : TaskID)
| m_declineOffer (oid : OfferID) (filters : option Filters)
| m_reviveOffers
| m_sendFrameworkMessage (eid : ExecutorID) (sid : SlaveID) (data : string)
| m_reconcileTasks (statuses : string).

Definition call (m : method) : D (option Status) :=
  match m with
  | m_start => start
  | m_stop failover => stop failover
  | m_abort => abort
  | m_join => join
  | m_run => run
  | m_requestResources requests => requestResources requests
  | m_launchTasks offer_ids tasks filters => launchTasks offer_ids tasks filters
  | m_killTask tid => killTask tid
  | m_declineOffer oid filters => declineOffer oid filters
  | m_reviveOffers => reviveOffers
  | m_sendFrameworkMessage eid sid data => sendFrameworkMessage eid sid data
  | m_reconcileTasks statuses => reconcileTasks statuses
  end.

Variable PID_from_string : string -> option PID.
Variable message_hash : SlaveID -> option Z.

(** One step of the whole: a thread calls a driver method, or the runtime
    makes the process (if there is one) run a command. *)
Inductive action :=
| by_driver (m : method)
| by_process (c : SchedulerProcess.command).

Definition step (a : action) (d : t) : t :=
  match a with
  | by_driver m => exec (call m) d
  | by_process c =>
      match scheduler_process d with
      | Some p =>
          set_scheduler_process
            (Some (exec (SchedulerProcess.run PID_from_string message_hash c) p)) d
      | None => d
      end
  end.

(** Any number of steps, in the order they happen. *)
Definition steps (acts : list action) (d : t) : t :=
  foldl (fun d a => step a d) d acts.

End Methods.

End PesosSchedulerDriver.

(** ** The scenario of the specification

    Concrete addresses, messages and states: the framework of the "happy
    register" scenario, one offer on one slave, one task. *)
Module Scenario.

Import SchedulerProcess.

Definition master_pid : PID := mkPID "master" "10.0.0.1" 5050.
Definition scheduler_pid : PID := mkPID "scheduler" "10.0.0.7" 8000.
Definition slave_pid : PID := mkPID "slave" "10.0.0.2" 5051.

(** An address parser that knows the slave of the scenario. *)
Definition parse (str : string) : option PID :=
  if String.eqb str "slave@10.0.0.2:5051" then Some slave_pid else None.

(** The two ways a protobuf runtime can treat [hash] of a message. *)
Definition unhashable (m : SlaveID) : option Z := None.
Definition hashable (m : SlaveID) : option Z := Some 0%Z.

Definition fw : FrameworkInfo := mkFrameworkInfo None "" "".
Definition o1 : OfferID := mkOfferID "o-1".
Definition s1 : SlaveID := mkSlaveID "s-1".
Definition o2 : OfferID := mkOfferID "o-2".
Definition s2 : SlaveID := mkSlaveID "s-2".
Definition e1 : ExecutorID := mkExecutorID "e-1".

(** Well-formed: a command and no executor. *)
Definition t1 : TaskInfo :=
  mkTaskInfo (mkTaskID "t-1") s1 None (Some (mkCommandInfo "true")).

(** Malformed: both a command and an executor. *)
Definition t2 : TaskInfo :=
  mkTaskInfo (mkTaskID "t-2") s1 (Some (mkExecutorInfo e1 None)) (Some (mkCommandInfo "true")).

(** A master was detected, registration is under way. *)
Definition registering : t :=
  run_all parse unhashable [Detected (resolved (Some master_pid))] (init scheduler_pid fw).

(** Scenario 1: the master answered the registration. *)
Definition registered : t :=
  run_all parse unhashable
    [Receive master_pid (FrameworkRegisteredMessage (mkFrameworkID "f-1") "master-info")]
    registering.

(** Scenario 2, first half: offer [o-1] on slave [s-1] arrived. *)
Definition offered : t :=
  run_all parse unhashable
    [Receive master_pid (ResourceOffersMessage [mkOffer o1 s1] ["slave@10.0.0.2:5051"])]
    registered.

(** Scenario 2, second half: task [t-1] was launched against [o-1]. *)
Definition launched : t :=
  run_all parse unhashable [LaunchTasks [o1] [t1] None] offered.

(** Well-formed: an executor without a framework id, and no command. *)
Definition t3 : TaskInfo :=
  mkTaskInfo (mkTaskID "t-3") s1 (Some (mkExecutorInfo e1 None)) None.

(** Scenarios 1 and 2 as one list of commands. *)
Definition offer_then_launch : list command :=
  [ Detected (resolved (Some master_pid));
    Receive master_pid (FrameworkRegisteredMessage (mkFrameworkID "f-1") "master-info");
    Receive master_pid (ResourceOffersMessage [mkOffer o1 s1] ["slave@10.0.0.2:5051"]);
    LaunchTasks [o1] [t1] None ].

(** Drivers: not started, running on the scenario's process, and aborted. *)
Definition fresh_driver : PesosSchedulerDriver.t :=
  PesosSchedulerDriver.init fw "zk://bad" "host.example" "user".

Definition running_driver : PesosSchedulerDriver.t :=
  PesosSchedulerDriver.mk (Some PesosSchedulerDriver.DRIVER_RUNNING) (Some registered)
    (Some (PesosSchedulerDriver.detector_for "10.0.0.1:5050")) "10.0.0.1:5050" fw [].

Definition aborted_driver : PesosSchedulerDriver.t :=
  exec PesosSchedulerDriver.abort running_driver.

(** A detector factory that accepts no URI. *)
Definition no_detector (uri : string) : option PesosSchedulerDriver.Detector := None.

End Scenario.

(** ** Kinds of commands

    Where in the source a command sits: behind which decorator, and which of
    the tables its body assigns to. *)

(** Declared under [ignore_if_disconnected]. *)
Definition behind_connected_guard (c : SchedulerProcess.command) : bool :=
  match c with
  | SchedulerProcess.Receive _ (ResourceOffersMessage _ _)
  | SchedulerProcess.Receive _ (RescindResourceOfferMessage _)
  | SchedulerProcess.Receive _ (StatusUpdateMessage _)
  | SchedulerProcess.Receive _ (LostSlaveMessage _)
  | SchedulerProcess.KillTask _
  | SchedulerProcess.RequestResources _
  | SchedulerProcess.ReviveOffers
  | SchedulerProcess.SendFrameworkMessage _ _ _
  | SchedulerProcess.ReconcileTasks _ => true
  | _ => false
  end.

(** The handlers whose body calls [self.valid_origin(from_pid)]. *)
Definition checks_origin (m : inbound) : bool :=
  match m with
  | ExecutorToFrameworkMessage _ _ _ | FrameworkErrorMessage _ => false
  | _ => true
  end.

(** The handlers whose body calls [self.connected.set()]. *)
Definition sets_connected (c : SchedulerProcess.command) : bool :=
  match c with
  | SchedulerProcess.Receive _ (FrameworkRegisteredMessage _ _)
  | SchedulerProcess.Receive _ (FrameworkReregisteredMessage _ _) => true
  | _ => false
  end.

(** The methods with a [send] that no test of [connected] stands before:
    [_do_registration] (also through [detected]), [stop] and
    [status_update_acknowledgement].  ([launch_tasks] tests the flag
    itself.) *)
Definition sends_without_connected_guard (c : SchedulerProcess.command) : bool :=
  match c with
  | SchedulerProcess.Detected _
  | SchedulerProcess.DoRegistration _
  | SchedulerProcess.Stop _
  | SchedulerProcess.StatusUpdateAcknowledgement _ _ => true
  | _ => false
  end.

(** The method whose body assigns to [master], and the one that writes
    [framework]. *)
Definition writes_master (c : SchedulerProcess.command) : bool :=
  match c with
  | SchedulerProcess.Detected _ => true
  | _ => false
  end.

Definition writes_framework (c : SchedulerProcess.command) : bool :=
  match c with
  | SchedulerProcess.Receive _ (FrameworkRegisteredMessage _ _) => true
  | _ => false
  end.

(** The methods whose body assigns to or pops from [saved_slaves]. *)
Definition writes_saved_slaves (c : SchedulerProcess.command) : bool :=
  match c with
  | SchedulerProcess.Receive _ (LostSlaveMessage _)
  | SchedulerProcess.LaunchTasks _ _ _ => true
  | _ => false
  end.

(** The methods whose body assigns to or pops from [saved_offers]. *)
Definition writes_saved_offers (c : SchedulerProcess.command) : bool :=
  match c with
  | SchedulerProcess.Receive _ (ResourceOffersMessage _ _)
  | SchedulerProcess.Receive _ (RescindResourceOfferMessage _)
  | SchedulerProcess.LaunchTasks _ _ _ => true
  | _ => false
  end.

(** The driver methods that start with
    [if self.status is not DRIVER_RUNNING: return self.status]. *)
Definition needs_running (m : PesosSchedulerDriver.method) : bool :=
  match m with
  | PesosSchedulerDriver.m_start
  | PesosSchedulerDriver.m_stop _
  | PesosSchedulerDriver.m_run => false
  | _ => true
  end.

(** The tasks that get through the sanity checks of [launch_tasks] without a
    call of [_local_lost]: exactly one of executor and command, and an
    executor whose framework id, if it has one, is the framework's. *)
Definition passes_checks (fid : string) (task : TaskInfo) : bool :=
  match task_executor task, task_command task with
  | Some ex, None =>
      match ex_framework_id ex with
      | Some f => String.eqb (FrameworkID_value f) fid
      | None => true
      end
  | None, Some _ => true
  | _, _ => false
  end.

(** The task as the checks leave it: an executor without a framework id gets
    the framework's. *)
Definition with_framework_id (fid : string) (task : TaskInfo) : TaskInfo :=
  match task_executor task with
  | Some ex =>
      match ex_framework_id ex with
      | Some _ => task
      | None =>
          mkTaskInfo (task_id task) (task_slave_id task)
            (Some (mkExecutorInfo (ex_executor_id ex) (Some (mkFrameworkID fid))))
            (task_command task)
      end
  | None => task
  end.

(** The slave cache after the inner loop of [launch_tasks] visited one task
    with the entry [slaves] of the offer, and after it visited all tasks. *)
Definition promoted (slaves : gmap string PID) (cache : gmap pykey PID) (task : TaskInfo)
  : gmap pykey PID :=
  match slaves !! SlaveID_value (task_slave_id task) with
  | Some p => <[KStr (SlaveID_value (task_slave_id task)) := p]> cache
  | None => cache
  end.

Definition promoted_all (slaves : gmap string PID) (cache : gmap pykey PID)
    (tasks : list TaskInfo) : gmap pykey PID :=
  foldl (promoted slaves) cache tasks.

(** Two states of the process that differ at most in the two tables and in
    log lines: same messages sent, same callbacks made, same master, flags
    and framework. *)
Definition same_but_tables (s1 s : SchedulerProcess.t) : Prop :=
  SchedulerProcess.sends (SchedulerProcess.events s1)
  = SchedulerProcess.sends (SchedulerProcess.events s)
  /\ SchedulerProcess.callbacks (SchedulerProcess.events s1)
     = SchedulerProcess.callbacks (SchedulerProcess.events s)
  /\ SchedulerProcess.master s1 = SchedulerProcess.master s
  /\ SchedulerProcess.framework s1 = SchedulerProcess.framework s
  /\ SchedulerProcess.connected s1 = SchedulerProcess.connected s
  /\ SchedulerProcess.aborted s1 = SchedulerProcess.aborted s.

(** How many times the driver called [context.spawn]. *)
Definition spawns (es : list PesosSchedulerDriver.effect) : nat :=
  length (List.filter
            (fun e => match e with PesosSchedulerDriver.Spawned => true | _ => false end) es).

(** * Properties *)

Local Open Scope list_scope.

(** ** The driver's lifecycle *)

Section DriverLifecycle.

Import PesosSchedulerDriver.

(** C5: [stop(failover)] called with status RUNNING or ABORTED stores STOPPED,
    notifies the condition variable [join] waits on (after dispatching [stop]
    to the process, when there is one), and returns ABORTED when the status
    was ABORTED and STOPPED when it was RUNNING. *)
Theorem stop_returns_prior_stores_stopped (failover : bool) (d : t) :
  status d = Some DRIVER_ABORTED ∨ status d = Some DRIVER_RUNNING →
  status (exec (stop failover) d) = Some DRIVER_STOPPED
  ∧ effects (exec (stop failover) d)
    = effects d
      ++ (if bool_decide (is_Some (scheduler_process d))
          then [Dispatched (SchedulerProcess.Stop failover)] else [])
      ++ [Notified]
  ∧ (status d = Some DRIVER_ABORTED →
     outcome (stop failover) d = Returns (Some DRIVER_ABORTED))
  ∧ (status d = Some DRIVER_RUNNING →
     outcome (stop failover) d = Returns (Some DRIVER_STOPPED)).
Proof.
  intros Hst. unfold exec, outcome, stop.
  cbv [mbind mret Py_bind Py_ret bind ret get modify dispatch notify emit].
  destruct d as [st proc det uri fw eff]; simpl in *.
  assert (Hin : bool_decide (st = Some DRIVER_RUNNING ∨ st = Some DRIVER_ABORTED) = true).
  { apply bool_decide_eq_true. tauto. }
  rewrite Hin; simpl.
  destruct (bool_decide (is_Some proc)); simpl.
  - rewrite <- app_assoc; simpl.
    repeat split; intros ->; reflexivity.
  - repeat split; intros ->; reflexivity.
Qed.

Lemma stop_returns_prior_stores_stopped_witness :
  status Scenario.aborted_driver = Some DRIVER_ABORTED
  ∧ outcome (stop false) Scenario.aborted_driver = Returns (Some DRIVER_ABORTED)
  ∧ status (exec (stop false) Scenario.aborted_driver) = Some DRIVER_STOPPED.
Proof.
  pose proof (stop_returns_prior_stores_stopped false Scenario.aborted_driver
                (or_introl eq_refl)) as (Hst & _ & Hab & _).
  split; [reflexivity | split; [exact (Hab eq_refl) | exact Hst]].
Defined.

(** C6 (as the code behaves): with status NOT_STARTED and a URI the detector
    factory rejects, [start] stores ABORTED and returns [None], not the
    status; with a URI it accepts (and no process yet) [start] stores RUNNING
    and returns RUNNING. *)
Theorem start_detector_failure_returns_None
    (from_uri : string → option Detector) (scheduler_pid : PID) (d : t) :
  status d = Some DRIVER_NOT_STARTED →
  (from_uri (master_uri d) = None →
   outcome (start from_uri scheduler_pid) d = Returns None
   ∧ status (exec (start from_uri scheduler_pid) d) = Some DRIVER_ABORTED)
  ∧ (is_Some (from_uri (master_uri d)) → scheduler_process d = None →
     outcome (start from_uri scheduler_pid) d = Returns (Some DRIVER_RUNNING)
     ∧ status (exec (start from_uri scheduler_pid) d) = Some DRIVER_RUNNING).
Proof.
  intros Hst. unfold exec, outcome, start.
  cbv [mbind mret Py_bind Py_ret bind ret get modify emit assert raise].
  rewrite Hst; simpl. split.
  - intros ->. split; reflexivity.
  - intros [det ->] ->. split; reflexivity.
Qed.

Lemma start_detector_failure_returns_None_witness :
  outcome (start Scenario.no_detector Scenario.scheduler_pid) Scenario.fresh_driver
  = Returns None
  ∧ status (exec (start Scenario.no_detector Scenario.scheduler_pid) Scenario.fresh_driver)
    = Some DRIVER_ABORTED.
Proof.
  exact (proj1 (start_detector_failure_returns_None Scenario.no_detector
                  Scenario.scheduler_pid Scenario.fresh_driver eq_refl) eq_refl).
Defined.

End DriverLifecycle.

(** ** The aborted flag *)

Section Preservation.

Context {S : Type} (P : S → Prop).

Lemma preserves_ret {A} (a : A) : preserves P (mret a).
Proof. intros s Hs. exact Hs. Qed.

Lemma preserves_raise {A} (e : exn) : preserves P (@raise S A e).
Proof. intros s Hs. exact Hs. Qed.

Lemma preserves_get : preserves P get.
Proof. intros s Hs. exact Hs. Qed.

Lemma preserves_modify (f : S → S) : (∀ s, P s → P (f s)) → preserves P (modify f).
Proof. intros Hf s Hs. apply Hf, Hs. Qed.

Lemma preserves_bind {A B} (c : Py S A) (k : A → Py S B) :
  preserves P c → (∀ a, preserves P (k a)) → preserves P (c ≫= k).
Proof.
  intros Hc Hk s Hs. specialize (Hc s Hs).
  unfold exec, mbind, Py_bind, bind in *.
  destruct (c s) as [[a | e |] s']; simpl in *; try exact Hc.
  apply Hk, Hc.
Qed.

Lemma preserves_assert (c : bool) : preserves P (assert c).
Proof. destruct c; [apply preserves_ret | apply preserves_raise]. Qed.

Lemma preserves_for_each {A} (xs : list A) (body : A → Py S unit) :
  (∀ x, preserves P (body x)) → preserves P (for_each xs body).
Proof.
  intros Hbody. induction xs as [| x xs IH]; simpl.
  - apply preserves_ret.
  - apply preserves_bind; [apply Hbody | intros _; exact IH].
Qed.

Lemma preserves_for_each_update {A} (xs : list A) (body : A → Py S A) :
  (∀ x, preserves P (body x)) → preserves P (for_each_update xs body).
Proof.
  intros Hbody. induction xs as [| x xs IH]; simpl.
  - apply preserves_ret.
  - apply preserves_bind; [apply Hbody | intros x'].
    apply preserves_bind; [exact IH | intros rest; apply preserves_ret].
Qed.

End Preservation.

(** One step after the other through the text of a method: sequencing, the
    primitive operations, the loops, and case analysis on what a branch
    inspects.  [close] proves that a field update keeps the property. *)
Ltac through_method close :=
  repeat first
    [ apply preserves_ret
    | apply preserves_raise
    | apply preserves_get
    | apply preserves_assert
    | apply preserves_modify; intros ? ?; simpl; close
    | apply preserves_for_each; intros ?
    | apply preserves_for_each_update; intros ?
    | apply preserves_bind; [| intros ?]
    | case_match ].

Section Aborted.

Import SchedulerProcess.

Variable PID_from_string : string → option PID.
Variable message_hash : SlaveID → option Z.

Lemma _local_lost_keeps_aborted task reason : preserves is_aborted (_local_lost task reason).
Proof. unfold _local_lost, global, send, emit. through_method ltac:(assumption). Qed.

Lemma run_keeps_aborted (c : command) :
  preserves is_aborted (run PID_from_string message_hash c).
Proof.
  destruct c as [| | f | backoff | from_pid m | | | args | | | | | |]; simpl;
    try destruct m; simpl;
    unfold initialize, detect, detected, _do_registration, registered, reregistered,
      resource_offers, rescind_offer, status_update, status_update_acknowledgement,
      lost_slave, framework_message, error, stop, abort, abort_method, kill_task,
      request_resources, launch_tasks, revive_offers, send_framework_message,
      reconcile_tasks, check_task, consume_offer, promote_slave, pop_saved_offers,
      pop_saved_slaves, save_offer, ignore_if_aborted, ignore_if_disconnected,
      valid_origin, log, send, camel_call, emit;
    through_method ltac:(first [assumption | reflexivity]);
    apply _local_lost_keeps_aborted.
Qed.

(** With [aborted] set, a handler behind [ignore_if_aborted] only writes its
    log line. *)
Lemma ignore_if_aborted_drops (method : M unit) (s : t) :
  aborted s = true →
  ∃ text, ignore_if_aborted method s
          = (Returns tt, set_events (events s ++ [Log INFO text]) s).
Proof.
  intros Hab. eexists. unfold ignore_if_aborted.
  cbv [mbind Py_bind bind get log emit modify]. rewrite Hab. reflexivity.
Qed.

Lemma ignore_if_disconnected_drops (method : M unit) (s : t) :
  aborted s = true →
  ∃ text, ignore_if_disconnected (ignore_if_aborted method) s
          = (Returns tt, set_events (events s ++ [Log INFO text]) s).
Proof.
  intros Hab. unfold ignore_if_disconnected.
  cbv [mbind Py_bind bind get]. destruct (connected s); simpl.
  - apply ignore_if_aborted_drops, Hab.
  - eexists. reflexivity.
Qed.

Lemma receive_dropped_when_aborted (from_pid : PID) (m : inbound) (s : t) :
  aborted s = true →
  ∃ text, receive PID_from_string from_pid m s
          = (Returns tt, set_events (events s ++ [Log INFO text]) s).
Proof.
  intros Hab. destruct m; simpl;
    first [ apply ignore_if_aborted_drops, Hab
          | apply ignore_if_disconnected_drops, Hab ].
Qed.

Variable from_uri : string → option PesosSchedulerDriver.Detector.
Variable scheduler_pid : PID.

Lemma call_keeps_aborted (m : PesosSchedulerDriver.method) (d : PesosSchedulerDriver.t)
    (p : t) :
  PesosSchedulerDriver.scheduler_process d = Some p → aborted p = true →
  ∃ p', PesosSchedulerDriver.scheduler_process
          (exec (PesosSchedulerDriver.call from_uri scheduler_pid m) d) = Some p'
        ∧ aborted p' = true.
Proof.
  intros Hp Hab.
  destruct d as [st proc det uri fw eff]; simpl in Hp; subst proc.
  destruct m; simpl;
    unfold exec, PesosSchedulerDriver.run, PesosSchedulerDriver.start,
      PesosSchedulerDriver.stop, PesosSchedulerDriver.abort, PesosSchedulerDriver.join,
      PesosSchedulerDriver.requestResources, PesosSchedulerDriver.declineOffer,
      PesosSchedulerDriver.launch_tasks, PesosSchedulerDriver.launchTasks,
      PesosSchedulerDriver.killTask,
      PesosSchedulerDriver.reviveOffers, PesosSchedulerDriver.sendFrameworkMessage,
      PesosSchedulerDriver.reconcileTasks, PesosSchedulerDriver.command;
    cbv [mbind mret Py_bind Py_ret bind ret get modify raise assert
         PesosSchedulerDriver.dispatch PesosSchedulerDriver.notify
         PesosSchedulerDriver.emit]; simpl;
    repeat (case_match; simpl in *; simplify_eq);
    eauto.
Qed.

Lemma step_keeps_aborted (a : PesosSchedulerDriver.action) (d : PesosSchedulerDriver.t)
    (p : t) :
  PesosSchedulerDriver.scheduler_process d = Some p → aborted p = true →
  ∃ p', PesosSchedulerDriver.scheduler_process
          (PesosSchedulerDriver.step from_uri scheduler_pid PID_from_string message_hash a d)
        = Some p'
        ∧ aborted p' = true.
Proof.
  intros Hp Hab. destruct a as [m | c]; simpl.
  - eapply call_keeps_aborted; eassumption.
  - rewrite Hp. eexists. split; [reflexivity |].
    apply run_keeps_aborted, Hab.
Qed.

(** C7: once the aborted flag of the process is set, it stays set through
    any sequence of driver calls (by any thread) and process commands and
    messages (run by the runtime); and in every state reached that way a
    message arriving at the process, whatever its type and sender, changes
    nothing and leaves one line in the log: no callback into the user's
    scheduler, nothing sent. *)
Theorem aborted_is_sticky (d : PesosSchedulerDriver.t) (p : t)
    (acts : list PesosSchedulerDriver.action) :
  PesosSchedulerDriver.scheduler_process d = Some p →
  aborted p = true →
  ∃ p',
    PesosSchedulerDriver.scheduler_process
      (PesosSchedulerDriver.steps from_uri scheduler_pid PID_from_string message_hash acts d)
    = Some p'
    ∧ aborted p' = true
    ∧ ∀ from_pid m, ∃ text,
        receive PID_from_string from_pid m p'
        = (Returns tt, set_events (events p' ++ [Log INFO text]) p').
Proof.
  revert d p. induction acts as [| a acts IH]; intros d p Hp Hab; simpl.
  - exists p. split; [exact Hp |]. split; [exact Hab |].
    intros from_pid m. apply receive_dropped_when_aborted, Hab.
  - destruct (step_keeps_aborted a d p Hp Hab) as (p1 & Hp1 & Hab1).
    exact (IH _ p1 Hp1 Hab1).
Qed.

End Aborted.

(** The aborted driver of the scenario: the driver is stopped, then the
    master sends a resource offer; the flag is still set afterwards, and a
    further offer would be dropped. *)
Lemma aborted_is_sticky_witness :
  ∃ p',
    PesosSchedulerDriver.scheduler_process
      (PesosSchedulerDriver.steps Scenario.no_detector Scenario.scheduler_pid
         Scenario.parse Scenario.unhashable
         [ PesosSchedulerDriver.by_driver (PesosSchedulerDriver.m_stop false);
           PesosSchedulerDriver.by_process
             (SchedulerProcess.Receive Scenario.master_pid
                (ResourceOffersMessage [mkOffer Scenario.o1 Scenario.s1]
                   ["slave@10.0.0.2:5051"])) ]
         Scenario.aborted_driver)
    = Some p'
    ∧ SchedulerProcess.aborted p' = true
    ∧ SchedulerProcess.callbacks (SchedulerProcess.events p')
      = SchedulerProcess.callbacks (SchedulerProcess.events Scenario.registered)
    ∧ ∃ text,
        SchedulerProcess.receive Scenario.parse Scenario.master_pid
          (ResourceOffersMessage [mkOffer Scenario.o1 Scenario.s1] ["slave@10.0.0.2:5051"]) p'
        = (Returns tt,
           SchedulerProcess.set_events (SchedulerProcess.events p' ++ [Log INFO text]) p').
Proof.
  destruct (aborted_is_sticky Scenario.parse Scenario.unhashable Scenario.no_detector
              Scenario.scheduler_pid Scenario.aborted_driver
              (SchedulerProcess.set_aborted true Scenario.registered)
              [ PesosSchedulerDriver.by_driver (PesosSchedulerDriver.m_stop false);
                PesosSchedulerDriver.by_process
                  (SchedulerProcess.Receive Scenario.master_pid
                     (ResourceOffersMessage [mkOffer Scenario.o1 Scenario.s1]
                        ["slave@10.0.0.2:5051"])) ]
              eq_refl eq_refl) as (p' & Hp' & Hab' & Hdrop).
  exists p'. split; [exact Hp' |]. split; [exact Hab' |]. split.
  - vm_compute in Hp'. injection Hp' as <-. vm_compute. reflexivity.
  - apply Hdrop.
Defined.

(** ** Launching tasks and losing slaves *)

Section Launch.

Import SchedulerProcess.

(** [_local_lost] never gets as far as [send]: [mesos] is not a name of the
    module. *)
Lemma _local_lost_raises (task : TaskInfo) (reason : string) (s : t) :
  _local_lost task reason s = (Raises (NameError "mesos"), s).
Proof. reflexivity. Qed.

Lemma check_task_malformed (task : TaskInfo) (s : t) :
  (is_Some (task_executor task) ↔ is_Some (task_command task)) →
  check_task task s = (Raises (NameError "mesos"), s).
Proof.
  intros Hmal. unfold check_task. cbv [mbind Py_bind bind get].
  rewrite bool_decide_eq_true_2 by exact Hmal. reflexivity.
Qed.

(** The sanity check of one task changes nothing in the process: it returns
    the task (possibly with the framework id filled in) or raises out of
    [_local_lost]. *)
Lemma check_task_outcomes (task : TaskInfo) (s : t) :
  (∃ task', check_task task s = (Returns task', s))
  ∨ check_task task s = (Raises (NameError "mesos"), s).
Proof.
  unfold check_task. cbv [mbind mret Py_bind Py_ret bind ret get].
  repeat first [rewrite _local_lost_raises | case_match]; eauto.
Qed.

Lemma check_tasks_malformed (tasks : list TaskInfo) (s : t) :
  Exists (λ task, is_Some (task_executor task) ↔ is_Some (task_command task)) tasks →
  for_each_update tasks check_task s = (Raises (NameError "mesos"), s).
Proof.
  induction 1 as [task tasks Hmal | task tasks _ IH]; simpl;
    cbv [mbind Py_bind bind].
  - rewrite check_task_malformed by exact Hmal. reflexivity.
  - destruct (check_task_outcomes task s) as [[task' ->] | ->]; [| reflexivity].
    fold (@bind t (list TaskInfo)). cbv [bind]. rewrite IH. reflexivity.
Qed.

(** C1 (as the code behaves): [launch_tasks] called with at least one task
    while the process is not connected raises [NameError] in [_local_lost]
    for the first task and leaves the process as it was: no status update is
    sent to the process's own address and no callback is made. *)
Theorem launch_tasks_disconnected_raises (offer_ids : list OfferID) (task : TaskInfo)
    (tasks : list TaskInfo) (filters : option Filters) (s : t) :
  connected s = false →
  launch_tasks offer_ids (task :: tasks) filters s = (Raises (NameError "mesos"), s).
Proof.
  intros Hdis. unfold launch_tasks. cbv [mbind Py_bind bind get].
  rewrite Hdis. reflexivity.
Qed.

Lemma launch_tasks_disconnected_raises_witness :
  launch_tasks [Scenario.o1] [Scenario.t1] None Scenario.registering
  = (Raises (NameError "mesos"), Scenario.registering).
Proof.
  apply (launch_tasks_disconnected_raises [Scenario.o1] Scenario.t1 [] None
           Scenario.registering).
  reflexivity.
Defined.

(** C4 (as the code behaves): a connected [launch_tasks] whose tasks include
    one that has both or neither of executor and command raises [NameError]
    in [_local_lost] and leaves the process as it was: neither a status
    update nor a LaunchTasksMessage is sent, and no callback is made. *)
Theorem launch_tasks_malformed_raises (offer_ids : list OfferID) (tasks : list TaskInfo)
    (filters : option Filters) (s : t) :
  connected s = true →
  Exists (λ task, is_Some (task_executor task) ↔ is_Some (task_command task)) tasks →
  launch_tasks offer_ids tasks filters s = (Raises (NameError "mesos"), s).
Proof.
  intros Hcon Hmal. unfold launch_tasks. cbv [mbind Py_bind bind get].
  rewrite Hcon. simpl.
  fold (@bind t (list TaskInfo)). cbv [bind].
  rewrite (check_tasks_malformed tasks s Hmal). reflexivity.
Qed.

Lemma launch_tasks_malformed_raises_witness :
  launch_tasks [Scenario.o1] [Scenario.t2] None Scenario.offered
  = (Raises (NameError "mesos"), Scenario.offered).
Proof.
  apply (launch_tasks_malformed_raises [Scenario.o1] [Scenario.t2] None Scenario.offered).
  - reflexivity.
  - apply Exists_cons_hd. split; intros _; eexists; reflexivity.
Defined.

End Launch.

Section Tables.

Import SchedulerProcess.

Variable PID_from_string : string → option PID.

Lemma promote_slave_unknown_offer (oid : OfferID) (tasks : list TaskInfo) (s : t) :
  saved_offers s !! OfferID_value oid = None →
  for_each tasks (promote_slave oid) s
  = (Returns tt,
     set_events
       (events s
        ++ replicate (length tasks)
             (Log WARNING "Attempting to launch task %s with an unknown offer %s")) s).
Proof.
  revert s. induction tasks as [| task tasks IH]; intros s Hnone; simpl.
  - rewrite app_nil_r. destruct s; reflexivity.
  - cbv [mbind Py_bind bind]. unfold promote_slave at 1.
    cbv [mbind Py_bind bind get log emit modify]. rewrite Hnone.
    rewrite IH by exact Hnone. simpl.
    rewrite <- app_assoc. reflexivity.
Qed.

(** C3 (as the code behaves): a connected [launch_tasks] whose tasks pass the
    sanity checks and whose first offer id is not in the offer table logs
    one warning per task and then raises [KeyError] where it pops the offer
    id: no LaunchTasksMessage is sent. *)
Theorem launch_tasks_unknown_offer_raises (oid : OfferID) (rest : list OfferID)
    (tasks tasks' : list TaskInfo) (filters : option Filters) (s : t) :
  connected s = true →
  for_each_update tasks check_task s = (Returns tasks', s) →
  saved_offers s !! OfferID_value oid = None →
  launch_tasks (oid :: rest) tasks filters s
  = (Raises (KeyError (KStr (OfferID_value oid))),
     set_events
       (events s
        ++ replicate (length tasks')
             (Log WARNING "Attempting to launch task %s with an unknown offer %s")) s).
Proof.
  intros Hcon Hchecked Hnone. unfold launch_tasks.
  cbv [mbind Py_bind bind get]. rewrite Hcon. simpl.
  fold (@bind t (list TaskInfo)). cbv [bind]. rewrite Hchecked.
  unfold consume_offer. cbv [mbind Py_bind bind].
  rewrite promote_slave_unknown_offer by exact Hnone.
  unfold pop_saved_offers. cbv [mbind Py_bind bind get raise]. simpl.
  rewrite Hnone. reflexivity.
Qed.

Lemma launch_tasks_unknown_offer_raises_witness :
  outcome (launch_tasks [Scenario.o1] [Scenario.t1] None) Scenario.registered
  = Raises (KeyError (KStr "o-1"))
  ∧ sends (events (exec (launch_tasks [Scenario.o1] [Scenario.t1] None) Scenario.registered))
    = sends (events Scenario.registered).
Proof.
  unfold outcome, exec.
  rewrite (launch_tasks_unknown_offer_raises Scenario.o1 [] [Scenario.t1] [Scenario.t1] None
             Scenario.registered eq_refl eq_refl eq_refl).
  split; reflexivity.
Defined.

(** C8 (as the code behaves): a LostSlave message from the current master,
    received while connected and not aborted, for a slave that has no entry
    in the slave cache raises [KeyError] where it pops the entry: the process
    is left as it was and [slave_lost] is not called. *)
Theorem lost_slave_uncached_raises (from_pid : PID) (sid : SlaveID) (s : t) :
  connected s = true →
  aborted s = false →
  master s = Some from_pid →
  saved_slaves s !! KStr (SlaveID_value sid) = None →
  receive PID_from_string from_pid (LostSlaveMessage sid) s
  = (Raises (KeyError (KStr (SlaveID_value sid))), s).
Proof.
  intros Hcon Hab Hmaster Hnone. simpl.
  unfold lost_slave, ignore_if_disconnected, ignore_if_aborted, valid_origin,
    pop_saved_slaves.
  cbv [mbind mret Py_bind Py_ret bind ret get assert raise].
  rewrite Hcon; simpl. rewrite Hab; simpl. rewrite Hmaster; simpl.
  rewrite bool_decide_eq_false_2 by (intros Hne; apply Hne; exact Hmaster).
  simpl. rewrite Hnone. reflexivity.
Qed.

End Tables.

Lemma lost_slave_uncached_raises_witness :
  SchedulerProcess.receive Scenario.parse Scenario.master_pid (LostSlaveMessage Scenario.s1)
    Scenario.offered
  = (Raises (KeyError (KStr "s-1")), Scenario.offered).
Proof.
  apply (lost_slave_uncached_raises Scenario.parse Scenario.master_pid Scenario.s1
           Scenario.offered); reflexivity.
Defined.

(** ** Resource offers *)

Section Offers.

Import SchedulerProcess.

Variable PID_from_string : string → option PID.

Lemma zip_take_min {A B} (xs : list A) (ys : list B) :
  zip xs ys
  = zip (take (Nat.min (length xs) (length ys)) xs) (take (Nat.min (length xs) (length ys)) ys).
Proof.
  revert ys. induction xs as [| x xs IH]; intros [| y ys]; simpl; try reflexivity.
  f_equal. apply IH.
Qed.

Lemma save_offers_parsed (offers : list Offer) (pids : list string) (ps : list PID) (s : t) :
  Forall2 (λ str p, PID_from_string str = Some p) pids ps →
  for_each (zip offers pids) (save_offer PID_from_string) s
  = (Returns tt, set_saved_offers (record_offers (saved_offers s) (zip offers ps)) s).
Proof.
  intros Hparse. revert offers s.
  induction Hparse as [| str p pids ps Hp _ IH]; intros [| offer offers] s; simpl;
    try (destruct s; reflexivity).
  cbv [mbind Py_bind bind]. unfold save_offer at 1. simpl. rewrite Hp.
  cbv [modify]. rewrite IH. destruct s; reflexivity.
Qed.


End Offers.



(** ** Framework messages and the slave cache *)

Section SlaveCache.

Import SchedulerProcess.

Variable PID_from_string : string → option PID.
Variable message_hash : SlaveID → option Z.

Lemma init_string_keyed (p : PID) (fw : FrameworkInfo) : string_keyed (init p fw).
Proof. intros m. apply lookup_empty. Qed.

Lemma _local_lost_keeps_string_keyed task reason :
  preserves string_keyed (_local_lost task reason).
Proof. unfold _local_lost, global, send, emit. through_method ltac:(assumption). Qed.

(** Every write to the cache uses a string key, so no command introduces a
    message key. *)
Lemma run_keeps_string_keyed (c : command) :
  preserves string_keyed (run PID_from_string message_hash c).
Proof.
  destruct c as [| | f | backoff | from_pid m | | | args | | | | | |]; simpl;
    try destruct m; simpl;
    unfold initialize, detect, detected, _do_registration, registered, reregistered,
      resource_offers, rescind_offer, status_update, status_update_acknowledgement,
      lost_slave, framework_message, error, stop, abort, abort_method, kill_task,
      request_resources, launch_tasks, revive_offers, send_framework_message,
      reconcile_tasks, check_task, consume_offer, promote_slave, pop_saved_offers,
      pop_saved_slaves, save_offer, ignore_if_aborted, ignore_if_disconnected,
      valid_origin, log, send, camel_call, emit;
    through_method ltac:(
      first [ assumption
            | intros ?; simpl; rewrite lookup_insert_ne by discriminate; auto
            | intros ?; simpl; apply lookup_delete_None; right; auto ]);
    apply _local_lost_keeps_string_keyed.
Qed.

Lemma run_all_keeps_string_keyed (cs : list command) (s : t) :
  string_keyed s → string_keyed (run_all PID_from_string message_hash cs s).
Proof.
  revert s. induction cs as [| c cs IH]; intros s Hs; simpl.
  - exact Hs.
  - apply IH, run_keeps_string_keyed, Hs.
Qed.

(** C9 (as the code behaves): in any state the process can reach from its
    construction, a connected [send_framework_message] looks the cache up
    with the [SlaveID] message, which is never one of its keys: when message
    objects cannot be hashed the call raises [TypeError] and sends nothing,
    and otherwise it logs the warning and sends through the master, also for
    a slave whose address an earlier [launch_tasks] put into the cache. *)
Theorem send_framework_message_never_direct (cs : list command) (p : PID)
    (fw : FrameworkInfo) (eid : ExecutorID) (sid : SlaveID) (data : string) :
  connected (run_all PID_from_string message_hash cs (init p fw)) = true →
  send_framework_message message_hash eid sid data
    (run_all PID_from_string message_hash cs (init p fw))
  = match message_hash sid with
    | None =>
        (Raises (TypeError "unhashable object"),
         run_all PID_from_string message_hash cs (init p fw))
    | Some _ =>
        (Returns tt,
         set_events
           (events (run_all PID_from_string message_hash cs (init p fw))
            ++ [ Log WARNING "Cannot send directly to slave %s, sending through master";
                 Send (master (run_all PID_from_string message_hash cs (init p fw)))
                      (FrameworkToExecutorMessage
                         (framework_id
                            (framework (run_all PID_from_string message_hash cs (init p fw))))
                         eid sid data) ])
           (run_all PID_from_string message_hash cs (init p fw)))
    end.
Proof.
  pose proof (run_all_keeps_string_keyed cs (init p fw) (init_string_keyed p fw) sid)
    as Hmiss.
  generalize dependent (run_all PID_from_string message_hash cs (init p fw)).
  intros s Hmiss Hcon.
  unfold send_framework_message, ignore_if_disconnected.
  cbv [mbind mret Py_bind Py_ret bind ret get raise log send emit modify].
  rewrite Hcon; simpl. destruct (message_hash sid); [| reflexivity].
  rewrite Hmiss. simpl. rewrite <- app_assoc. destruct s; reflexivity.
Qed.

End SlaveCache.

(** After scenario 2 the cache maps ["s-1"] to the slave's address, and a
    framework message for slave [s-1] still goes to the master (hashable
    messages) or is not sent at all (unhashable messages). *)
Lemma send_framework_message_never_direct_witness :
  SchedulerProcess.saved_slaves Scenario.launched !! KStr "s-1" = Some Scenario.slave_pid
  ∧ SchedulerProcess.sends
      (SchedulerProcess.events
         (exec (SchedulerProcess.send_framework_message Scenario.hashable
                  Scenario.e1 Scenario.s1 "data")
               (SchedulerProcess.run_all Scenario.parse Scenario.hashable
                  Scenario.offer_then_launch
                  (SchedulerProcess.init Scenario.scheduler_pid Scenario.fw))))
    = SchedulerProcess.sends (SchedulerProcess.events Scenario.launched)
      ++ [(Some Scenario.master_pid,
           FrameworkToExecutorMessage (mkFrameworkID "f-1") Scenario.e1 Scenario.s1 "data")]
  ∧ SchedulerProcess.send_framework_message Scenario.unhashable
      Scenario.e1 Scenario.s1 "data"
      (SchedulerProcess.run_all Scenario.parse Scenario.unhashable
         Scenario.offer_then_launch
         (SchedulerProcess.init Scenario.scheduler_pid Scenario.fw))
    = (Raises (TypeError "unhashable object"), Scenario.launched).
Proof.
  split; [vm_compute; reflexivity |]. split.
  - unfold exec.
    rewrite (send_framework_message_never_direct Scenario.parse Scenario.hashable
               Scenario.offer_then_launch Scenario.scheduler_pid Scenario.fw
               Scenario.e1 Scenario.s1 "data" eq_refl).
    vm_compute. reflexivity.
  - rewrite (send_framework_message_never_direct Scenario.parse Scenario.unhashable
               Scenario.offer_then_launch Scenario.scheduler_pid Scenario.fw
               Scenario.e1 Scenario.s1 "data" eq_refl).
    vm_compute. reflexivity.
Defined.

(** ** Registration backoff *)

Section Backoff.

Import SchedulerProcess.

Local Open Scope Z_scope.

(** One attempt of a process that is not connected and knows a master: it
    stays in that state and ends by scheduling the next attempt. *)
Lemma _do_registration_attempt (backoff : Z) (s : t) :
  connected s = false → is_Some (master s) →
  connected (exec (_do_registration backoff) s) = false
  ∧ master (exec (_do_registration backoff) s) = master s
  ∧ last (events (exec (_do_registration backoff) s))
    = Some (Delay backoff
              (call_do_registration (Z.max (backoff * 2) MASTER_MAX_BACKOFF_SECONDS))).
Proof.
  intros Hdis [m Hm]. unfold exec, _do_registration.
  cbv [mbind mret Py_bind Py_ret bind ret get log send emit modify].
  rewrite Hdis, Hm. simpl.
  destruct (String.eqb _ _); simpl; rewrite last_snoc; auto.
Qed.

(** Once the backoff has reached the constant, every delay is twice the one
    before. *)
Lemma registration_gaps_double (n : nat) (backoff : Z) (s : t) :
  MASTER_MAX_BACKOFF_SECONDS ≤ backoff →
  connected s = false → is_Some (master s) →
  registration_gaps n backoff s = map (λ k, backoff * 2 ^ Z.of_nat k) (seq 0 n).
Proof.
  revert backoff s. induction n as [| n IH]; intros backoff s Hle Hdis Hm; [reflexivity |].
  destruct (_do_registration_attempt backoff s Hdis Hm) as (Hdis' & Hm' & Hlast).
  cbn [registration_gaps]. rewrite Hlast.
  unfold MASTER_MAX_BACKOFF_SECONDS in *.
  rewrite Z.max_l by lia.
  rewrite IH; [| unfold MASTER_MAX_BACKOFF_SECONDS; lia | exact Hdis' | rewrite Hm'; exact Hm].
  cbn [seq map]. f_equal; [lia |].
  rewrite <- seq_shift, map_map. apply map_ext. intros k.
  rewrite Nat2Z.inj_succ, Z.pow_succ_r by lia. lia.
Qed.

(** C2 (as the code behaves): while the process is not connected and knows a
    master, there is no last attempt, and the delays between attempts are 2
    seconds, then 60, then twice the previous one each time (60, 120, 240,
    ...): the delay after the first is 60 and not 4, and from the third on
    the delays exceed 60 seconds. *)
Theorem registration_gaps_from_initial (n : nat) (s : t) :
  connected s = false → is_Some (master s) →
  registration_gaps (S n) MASTER_INITIAL_BACKOFF_SECONDS s
  = 2 :: map (λ k, 60 * 2 ^ Z.of_nat k) (seq 0 n).
Proof.
  intros Hdis Hm.
  destruct (_do_registration_attempt MASTER_INITIAL_BACKOFF_SECONDS s Hdis Hm)
    as (Hdis' & Hm' & Hlast).
  cbn [registration_gaps]. rewrite Hlast. f_equal.
  change (Z.max (MASTER_INITIAL_BACKOFF_SECONDS * 2) MASTER_MAX_BACKOFF_SECONDS) with 60.
  apply registration_gaps_double; [unfold MASTER_MAX_BACKOFF_SECONDS; lia | exact Hdis' |].
  rewrite Hm'. exact Hm.
Qed.

End Backoff.

Lemma registration_gaps_from_initial_witness :
  SchedulerProcess.registration_gaps 4 SchedulerProcess.MASTER_INITIAL_BACKOFF_SECONDS
    Scenario.registering
  = [2; 60; 120; 240]%Z.
Proof.
  rewrite (registration_gaps_from_initial 3 Scenario.registering eq_refl
             (ex_intro _ Scenario.master_pid eq_refl)).
  reflexivity.
Defined.

(** ** What a looped-back status update would meet

    [_local_lost] addresses its update to the process itself.  Whatever
    arrives from that address as a StatusUpdateMessage goes through the
    guards of [status_update] like any other message. *)

Section Loopback.

Import SchedulerProcess.

Variable PID_from_string : string → option PID.

Lemma status_update_dropped_when_disconnected (from_pid : PID) (update : StatusUpdate)
    (s : t) :
  connected s = false →
  receive PID_from_string from_pid (StatusUpdateMessage update) s
  = (Returns tt,
     set_events
       (events s
        ++ [Log INFO "Ignoring message from because the scheduler driver is disconnected."])
       s).
Proof.
  intros Hdis. simpl. unfold status_update, ignore_if_disconnected.
  cbv [mbind Py_bind bind get log emit modify]. rewrite Hdis. reflexivity.
Qed.

Lemma status_update_dropped_from_self (update : StatusUpdate) (s : t) :
  connected s = true →
  aborted s = false →
  master s ≠ Some (pid s) →
  receive PID_from_string (pid s) (StatusUpdateMessage update) s
  = (Returns tt,
     set_events
       (events s ++ [Log WARNING "Ignoring message from non-leading master %s"]) s).
Proof.
  intros Hcon Hab Hne. simpl.
  unfold status_update, ignore_if_disconnected, ignore_if_aborted, valid_origin.
  cbv [mbind mret Py_bind Py_ret bind ret get log emit modify].
  rewrite Hcon; simpl. rewrite Hab; simpl.
  rewrite bool_decide_eq_true_2 by exact Hne. reflexivity.
Qed.

End Loopback.

(** ** [run] after a failed [start]

    [run] stores what [start] returned: after a detector failure that is
    [None], which replaces the ABORTED that [start] had stored. *)
Lemma run_detector_failure_loses_status
    (from_uri : string → option PesosSchedulerDriver.Detector) (scheduler_pid : PID)
    (d : PesosSchedulerDriver.t) :
  PesosSchedulerDriver.status d = Some PesosSchedulerDriver.DRIVER_NOT_STARTED →
  from_uri (PesosSchedulerDriver.master_uri d) = None →
  outcome (PesosSchedulerDriver.run from_uri scheduler_pid) d = Returns None
  ∧ PesosSchedulerDriver.status (exec (PesosSchedulerDriver.run from_uri scheduler_pid) d)
    = None.
Proof.
  intros Hst Hfail.
  unfold exec, outcome, PesosSchedulerDriver.run, PesosSchedulerDriver.start.
  cbv [mbind mret Py_bind Py_ret bind ret get modify PesosSchedulerDriver.emit].
  rewrite Hst; simpl. rewrite Hfail; simpl. split; reflexivity.
Qed.

(** * Further properties of the process *)

Section Guards.

Import SchedulerProcess.

(** How the guards act on a process they let through. *)
Lemma ignore_if_aborted_runs (method : M unit) (s : t) :
  aborted s = false → ignore_if_aborted method s = method s.
Proof.
  intros Hab. unfold ignore_if_aborted. cbv [mbind Py_bind bind get]. rewrite Hab.
  reflexivity.
Qed.

Lemma ignore_if_disconnected_runs (method : M unit) (s : t) :
  connected s = true → ignore_if_disconnected method s = method s.
Proof.
  intros Hcon. unfold ignore_if_disconnected. cbv [mbind Py_bind bind get]. rewrite Hcon.
  reflexivity.
Qed.

Lemma ignore_if_disconnected_stops (method : M unit) (s : t) :
  connected s = false →
  ignore_if_disconnected method s
  = (Returns tt,
     set_events
       (events s
        ++ [Log INFO "Ignoring message from because the scheduler driver is disconnected."])
       s).
Proof.
  intros Hdis. unfold ignore_if_disconnected.
  cbv [mbind Py_bind bind get log emit modify]. rewrite Hdis. reflexivity.
Qed.

Lemma valid_origin_master (from_pid : PID) (s : t) :
  master s = Some from_pid → valid_origin from_pid s = (Returns true, s).
Proof.
  intros Hm. unfold valid_origin. cbv [mbind mret Py_bind Py_ret bind ret get].
  rewrite bool_decide_eq_false_2 by (intros Hne; apply Hne; exact Hm). reflexivity.
Qed.

Lemma valid_origin_other (from_pid : PID) (s : t) :
  master s ≠ Some from_pid →
  valid_origin from_pid s
  = (Returns false,
     set_events (events s ++ [Log WARNING "Ignoring message from non-leading master %s"]) s).
Proof.
  intros Hne. unfold valid_origin.
  cbv [mbind mret Py_bind Py_ret bind ret get log emit modify].
  rewrite bool_decide_eq_true_2 by exact Hne. reflexivity.
Qed.

(** Unfolding one sequencing step. *)
Lemma bind_run {S A B} (c : Py S A) (k : A → Py S B) (s : S) :
  (c ≫= k) s
  = match c s with
    | (Returns a, s') => k a s'
    | (Raises e, s') => (Raises e, s')
    | (Blocks, s') => (Blocks, s')
    end.
Proof. reflexivity. Qed.

Lemma callbacks_app (es1 es2 : list event) :
  callbacks (es1 ++ es2) = callbacks es1 ++ callbacks es2.
Proof. unfold callbacks. apply omap_app. Qed.

Lemma sends_app (es1 es2 : list event) : sends (es1 ++ es2) = sends es1 ++ sends es2.
Proof. unfold sends. apply omap_app. Qed.

End Guards.

Section Registration.

Import SchedulerProcess.

Variable PID_from_string : string → option PID.
Variable message_hash : SlaveID → option Z.

Lemma registered_accepted (from_pid : PID) (fid : FrameworkID) (info : string) (s : t) :
  connected s = false →
  aborted s = false →
  master s = Some from_pid →
  registered from_pid fid info s
  = (Returns tt,
     set_events (events s ++ [Callback (registered_cb fid info)])
       (set_failover false
          (set_connected true
             (set_framework
                (set_framework_id_value (FrameworkID_value fid) (framework s)) s)))).
Proof.
  intros Hdis Hab Hm. unfold registered.
  rewrite ignore_if_aborted_runs by exact Hab.
  rewrite bind_run. cbv [get]. rewrite Hdis.
  rewrite bind_run, valid_origin_master by exact Hm. reflexivity.
Qed.

Lemma registered_when_connected (from_pid : PID) (fid : FrameworkID) (info : string) (s : t) :
  connected s = true →
  callbacks (events (exec (registered from_pid fid info) s)) = callbacks (events s)
  ∧ framework (exec (registered from_pid fid info) s) = framework s
  ∧ connected (exec (registered from_pid fid info) s) = true.
Proof.
  intros Hcon. unfold exec, registered, ignore_if_aborted.
  cbv [mbind Py_bind bind get log emit modify].
  destruct (aborted s); simpl; [| rewrite Hcon; simpl];
    rewrite callbacks_app, app_nil_r; auto.
Qed.

(** X1: the first FrameworkRegistered message from the master that reaches
    a process that is neither connected nor aborted connects it, clears
    [failover], stores the framework id of the message and calls
    [registered] once.  The FrameworkRegistered message that comes next, from
    whatever sender and with whatever id, calls nothing and leaves the stored
    id alone; and so does any later one, whatever commands ran in between, if
    it finds the process still connected. *)
Theorem registered_once_while_connected (from_pid : PID) (fid : FrameworkID)
    (info : string) (s : t) :
  connected s = false →
  aborted s = false →
  master s = Some from_pid →
  connected (exec (receive PID_from_string from_pid (FrameworkRegisteredMessage fid info)) s)
  = true
  ∧ failover (exec (receive PID_from_string from_pid (FrameworkRegisteredMessage fid info)) s)
    = false
  ∧ framework_id
      (framework
         (exec (receive PID_from_string from_pid (FrameworkRegisteredMessage fid info)) s))
    = fid
  ∧ (∀ from_pid' fid' info',
        callbacks
          (events
             (exec (receive PID_from_string from_pid' (FrameworkRegisteredMessage fid' info'))
                (exec (receive PID_from_string from_pid (FrameworkRegisteredMessage fid info))
                   s)))
        = callbacks (events s) ++ [registered_cb fid info]
        ∧ framework_id
            (framework
               (exec
                  (receive PID_from_string from_pid' (FrameworkRegisteredMessage fid' info'))
                  (exec (receive PID_from_string from_pid (FrameworkRegisteredMessage fid info))
                     s)))
          = fid)
  ∧ ∀ cs from_pid' fid' info',
      connected
        (run_all PID_from_string message_hash cs
           (exec (receive PID_from_string from_pid (FrameworkRegisteredMessage fid info)) s))
      = true →
      callbacks
        (events
           (exec (receive PID_from_string from_pid' (FrameworkRegisteredMessage fid' info'))
              (run_all PID_from_string message_hash cs
                 (exec (receive PID_from_string from_pid (FrameworkRegisteredMessage fid info))
                    s))))
      = callbacks
          (events
             (run_all PID_from_string message_hash cs
                (exec (receive PID_from_string from_pid (FrameworkRegisteredMessage fid info))
                   s)))
      ∧ framework
          (exec (receive PID_from_string from_pid' (FrameworkRegisteredMessage fid' info'))
             (run_all PID_from_string message_hash cs
                (exec (receive PID_from_string from_pid (FrameworkRegisteredMessage fid info))
                   s)))
        = framework
            (run_all PID_from_string message_hash cs
               (exec (receive PID_from_string from_pid (FrameworkRegisteredMessage fid info))
                  s)).
Proof.
  intros Hdis Hab Hm. cbn [receive].
  assert (Hfirst :
    exec (registered from_pid fid info) s
    = set_events (events s ++ [Callback (registered_cb fid info)])
        (set_failover false
           (set_connected true
              (set_framework
                 (set_framework_id_value (FrameworkID_value fid) (framework s)) s)))).
  { unfold exec. rewrite registered_accepted by assumption. reflexivity. }
  assert (Hid :
    framework_id (framework (exec (registered from_pid fid info) s)) = fid).
  { rewrite Hfirst. destruct fid. reflexivity. }
  split; [rewrite Hfirst; reflexivity |].
  split; [rewrite Hfirst; reflexivity |].
  split; [exact Hid |].
  split.
  - intros from_pid' fid' info'.
    destruct (registered_when_connected from_pid' fid' info'
                (exec (registered from_pid fid info) s)) as (Hcb & Hfw & _).
    { rewrite Hfirst. reflexivity. }
    rewrite Hcb, Hfw. split; [| exact Hid].
    rewrite Hfirst. simpl. rewrite callbacks_app. reflexivity.
  - intros cs from_pid' fid' info' Hcon.
    destruct (registered_when_connected from_pid' fid' info' _ Hcon) as (Hcb & Hfw & _).
    split; [exact Hcb | exact Hfw].
Qed.

End Registration.

(** The scenario's registration, then a second answer with another id at
    once; and a third one after a resource offer was handled in between. *)
Lemma registered_once_while_connected_witness :
  SchedulerProcess.callbacks
    (SchedulerProcess.events
       (exec (SchedulerProcess.receive Scenario.parse Scenario.master_pid
                (FrameworkRegisteredMessage (mkFrameworkID "f-2") "again"))
          (exec (SchedulerProcess.receive Scenario.parse Scenario.master_pid
                   (FrameworkRegisteredMessage (mkFrameworkID "f-1") "master-info"))
             Scenario.registering)))
  = [registered_cb (mkFrameworkID "f-1") "master-info"]
  ∧ SchedulerProcess.framework
      (exec (SchedulerProcess.receive Scenario.parse Scenario.slave_pid
               (FrameworkRegisteredMessage (mkFrameworkID "f-3") "later"))
         (SchedulerProcess.run_all Scenario.parse Scenario.unhashable
            [SchedulerProcess.Receive Scenario.master_pid
               (ResourceOffersMessage [mkOffer Scenario.o1 Scenario.s1]
                  ["slave@10.0.0.2:5051"])]
            (exec (SchedulerProcess.receive Scenario.parse Scenario.master_pid
                     (FrameworkRegisteredMessage (mkFrameworkID "f-1") "master-info"))
               Scenario.registering)))
    = SchedulerProcess.framework
        (SchedulerProcess.run_all Scenario.parse Scenario.unhashable
           [SchedulerProcess.Receive Scenario.master_pid
              (ResourceOffersMessage [mkOffer Scenario.o1 Scenario.s1]
                 ["slave@10.0.0.2:5051"])]
           (exec (SchedulerProcess.receive Scenario.parse Scenario.master_pid
                    (FrameworkRegisteredMessage (mkFrameworkID "f-1") "master-info"))
              Scenario.registering)).
Proof.
  pose proof (registered_once_while_connected Scenario.parse Scenario.unhashable
                Scenario.master_pid (mkFrameworkID "f-1") "master-info"
                Scenario.registering eq_refl eq_refl eq_refl)
    as (_ & _ & _ & Hnext & Hlater).
  split.
  - exact (proj1 (Hnext Scenario.master_pid (mkFrameworkID "f-2") "again")).
  - exact (proj2 (Hlater
             [SchedulerProcess.Receive Scenario.master_pid
                (ResourceOffersMessage [mkOffer Scenario.o1 Scenario.s1]
                   ["slave@10.0.0.2:5051"])]
             Scenario.slave_pid (mkFrameworkID "f-3") "later" eq_refl)).
Defined.

Section Origin.

Import SchedulerProcess.

Variable PID_from_string : string → option PID.

Lemma assert_master_known (s : t) :
  is_Some (master s) → @assert t (bool_decide (master s ≠ None)) s = (Returns tt, s).
Proof.
  intros [m Hm]. rewrite bool_decide_eq_true_2 by (rewrite Hm; discriminate). reflexivity.
Qed.

(** X2: the origin guard.  A message of a type whose handler checks
    [valid_origin], arriving from an address that is not the current master
    at a process that would otherwise handle it (not aborted, a master known,
    and connected, or for the two registration answers not yet connected),
    leaves one warning in the log and changes nothing else. *)
Theorem foreign_sender_ignored (from_pid : PID) (m : inbound) (s : t) :
  checks_origin m = true →
  aborted s = false →
  is_Some (master s) →
  master s ≠ Some from_pid →
  connected s = negb (sets_connected (Receive from_pid m)) →
  receive PID_from_string from_pid m s
  = (Returns tt,
     set_events
       (events s ++ [Log WARNING "Ignoring message from non-leading master %s"]) s).
Proof.
  intros Hguard Hab Hm Hne Hcon.
  destruct m; try discriminate Hguard; simpl in *;
    unfold registered, reregistered, resource_offers, rescind_offer, status_update,
      lost_slave;
    rewrite ?ignore_if_disconnected_runs by exact Hcon;
    rewrite ignore_if_aborted_runs by exact Hab;
    rewrite bind_run; cbv [get]; rewrite ?Hcon;
    rewrite ?bind_run, ?assert_master_known by exact Hm;
    rewrite ?bind_run, valid_origin_other by exact Hne; reflexivity.
Qed.

(** X3: the two message types handled without origin and connection guards,
    ExecutorToFramework and FrameworkError, reach the user's callback from
    any sender and whether or not the process is connected, as long as it is
    not aborted; nothing else changes. *)
Theorem unguarded_messages_delivered (from_pid : PID) (m : inbound) (s : t) :
  checks_origin m = false →
  aborted s = false →
  receive PID_from_string from_pid m s
  = (Returns tt,
     set_events
       (events s
        ++ [Callback
              match m with
              | ExecutorToFrameworkMessage eid sid data => framework_message_cb eid sid data
              | FrameworkErrorMessage message => error_cb message
              | _ => disconnected_cb
              end]) s).
Proof.
  intros Hguard Hab.
  destruct m; try discriminate Hguard; simpl;
    unfold framework_message, error;
    rewrite ignore_if_aborted_runs by exact Hab; reflexivity.
Qed.

(** X4: a status update from the master, at a connected process that is not
    aborted, is acknowledged to the master with the framework id and the
    slave id, task id and uuid of the update, and only then handed to
    [status_update]; nothing else changes. *)
Theorem status_update_acknowledged_first (from_pid : PID) (update : StatusUpdate) (s : t) :
  connected s = true →
  aborted s = false →
  master s = Some from_pid →
  receive PID_from_string from_pid (StatusUpdateMessage update) s
  = (Returns tt,
     set_events
       (events s
        ++ [ Send (Some from_pid)
               (StatusUpdateAcknowledgementMessage (framework_id (framework s))
                  (update_slave_id update) (status_task_id (update_status update))
                  (update_uuid update));
             Callback (status_update_cb (update_status update)) ]) s).
Proof.
  intros Hcon Hab Hm. simpl. unfold status_update.
  rewrite ignore_if_disconnected_runs, ignore_if_aborted_runs by assumption.
  rewrite bind_run, valid_origin_master by exact Hm. simpl.
  rewrite bind_run. cbv [get]. rewrite Hm. simpl.
  rewrite bind_run. unfold status_update_acknowledgement.
  rewrite ignore_if_aborted_runs by exact Hab.
  cbv [mbind Py_bind bind get send camel_call emit modify]. simpl.
  rewrite <- app_assoc. destruct s; reflexivity.
Qed.

(** X5: rescinding never fails.  A RescindResourceOffer message from the
    master, at a connected process that is not aborted, removes the offer
    from the offer table if it is there, leaves every other offer and the
    slave cache alone, sends nothing, and calls [offer_rescinded] whether or
    not the offer was known. *)
Theorem rescind_offer_forgets_offer (from_pid : PID) (oid : OfferID) (s : t) :
  connected s = true →
  aborted s = false →
  master s = Some from_pid →
  outcome (receive PID_from_string from_pid (RescindResourceOfferMessage oid)) s = Returns tt
  ∧ saved_offers (exec (receive PID_from_string from_pid (RescindResourceOfferMessage oid)) s)
    = delete (OfferID_value oid) (saved_offers s)
  ∧ saved_slaves (exec (receive PID_from_string from_pid (RescindResourceOfferMessage oid)) s)
    = saved_slaves s
  ∧ callbacks
      (events (exec (receive PID_from_string from_pid (RescindResourceOfferMessage oid)) s))
    = callbacks (events s) ++ [offer_rescinded_cb oid]
  ∧ sends
      (events (exec (receive PID_from_string from_pid (RescindResourceOfferMessage oid)) s))
    = sends (events s).
Proof.
  intros Hcon Hab Hm. unfold exec, outcome. simpl. unfold rescind_offer.
  rewrite ignore_if_disconnected_runs, ignore_if_aborted_runs by assumption.
  rewrite bind_run. cbv [get].
  rewrite bind_run, assert_master_known by (rewrite Hm; eauto).
  rewrite bind_run, valid_origin_master by exact Hm. simpl.
  cbv [mbind mret Py_bind Py_ret bind ret get log camel_call emit modify]. simpl.
  case_bool_decide; simpl;
    rewrite ?callbacks_app, ?sends_app; simpl; rewrite ?app_nil_r; auto.
Qed.

End Origin.

Lemma foreign_sender_ignored_witness :
  SchedulerProcess.receive Scenario.parse Scenario.slave_pid
    (ResourceOffersMessage [mkOffer Scenario.o1 Scenario.s1] ["slave@10.0.0.2:5051"])
    Scenario.registered
  = (Returns tt,
     SchedulerProcess.set_events
       (SchedulerProcess.events Scenario.registered
        ++ [Log WARNING "Ignoring message from non-leading master %s"])
       Scenario.registered).
Proof.
  apply (foreign_sender_ignored Scenario.parse Scenario.slave_pid
           (ResourceOffersMessage [mkOffer Scenario.o1 Scenario.s1] ["slave@10.0.0.2:5051"])
           Scenario.registered);
    [reflexivity | reflexivity | eexists; reflexivity | discriminate | reflexivity].
Defined.

Lemma unguarded_messages_delivered_witness :
  SchedulerProcess.receive Scenario.parse Scenario.slave_pid
    (ExecutorToFrameworkMessage Scenario.e1 Scenario.s1 "hello") Scenario.registering
  = (Returns tt,
     SchedulerProcess.set_events
       (SchedulerProcess.events Scenario.registering
        ++ [Callback (framework_message_cb Scenario.e1 Scenario.s1 "hello")])
       Scenario.registering).
Proof.
  apply (unguarded_messages_delivered Scenario.parse Scenario.slave_pid
           (ExecutorToFrameworkMessage Scenario.e1 Scenario.s1 "hello")
           Scenario.registering); reflexivity.
Defined.

Lemma status_update_acknowledged_first_witness :
  SchedulerProcess.sends
    (SchedulerProcess.events
       (exec (SchedulerProcess.receive Scenario.parse Scenario.master_pid
                (StatusUpdateMessage
                   (mkStatusUpdate (mkFrameworkID "f-1")
                      (mkTaskStatus (mkTaskID "t-1") TASK_RUNNING "") Scenario.s1 "uuid-1")))
          Scenario.launched))
  = SchedulerProcess.sends (SchedulerProcess.events Scenario.launched)
    ++ [(Some Scenario.master_pid,
         StatusUpdateAcknowledgementMessage (mkFrameworkID "f-1") Scenario.s1
           (mkTaskID "t-1") "uuid-1")].
Proof.
  unfold exec.
  rewrite (status_update_acknowledged_first Scenario.parse Scenario.master_pid
             (mkStatusUpdate (mkFrameworkID "f-1")
                (mkTaskStatus (mkTaskID "t-1") TASK_RUNNING "") Scenario.s1 "uuid-1")
             Scenario.launched eq_refl eq_refl eq_refl).
  vm_compute. reflexivity.
Defined.

Lemma rescind_offer_forgets_offer_witness :
  SchedulerProcess.saved_offers
    (exec (SchedulerProcess.receive Scenario.parse Scenario.master_pid
             (RescindResourceOfferMessage Scenario.o1)) Scenario.offered)
  !! "o-1" = None
  ∧ SchedulerProcess.callbacks
      (SchedulerProcess.events
         (exec (SchedulerProcess.receive Scenario.parse Scenario.master_pid
                  (RescindResourceOfferMessage Scenario.o2)) Scenario.offered))
    = SchedulerProcess.callbacks (SchedulerProcess.events Scenario.offered)
      ++ [offer_rescinded_cb Scenario.o2].
Proof.
  split.
  - rewrite (proj1 (proj2 (rescind_offer_forgets_offer Scenario.parse Scenario.master_pid
                             Scenario.o1 Scenario.offered eq_refl eq_refl eq_refl))).
    apply lookup_delete_eq.
  - exact (proj1 (proj2 (proj2 (proj2
             (rescind_offer_forgets_offer Scenario.parse Scenario.master_pid Scenario.o2
                Scenario.offered eq_refl eq_refl eq_refl))))).
Defined.


Section Detection.

Import SchedulerProcess.

Variable PID_from_string : string → option PID.
Variable message_hash : SlaveID → option Z.

(** X6: what a detector result does to a process that is not aborted.  A
    resolved future always leaves the process disconnected with [master] set
    to the result, calls [disconnected] exactly when the process was
    connected, sends one registration message to a new master (first
    registration while the framework id is empty, re-registration with the
    current failover flag otherwise) and nothing when there is no master,
    keeps both tables, and ends by dispatching [detect] again. *)
Theorem detected_resolved (master_pid : option PID) (s : t) :
  aborted s = false →
  outcome (detected (resolved master_pid)) s = Returns tt
  ∧ connected (exec (detected (resolved master_pid)) s) = false
  ∧ master (exec (detected (resolved master_pid)) s) = master_pid
  ∧ callbacks (events (exec (detected (resolved master_pid)) s))
    = callbacks (events s) ++ (if connected s then [disconnected_cb] else [])
  ∧ sends (events (exec (detected (resolved master_pid)) s))
    = sends (events s)
      ++ match master_pid with
         | Some p =>
             [(Some p,
               if String.eqb (FrameworkID_value (framework_id (framework s))) ""
               then RegisterFrameworkMessage (framework s)
               else ReregisterFrameworkMessage (framework s) (failover s))]
         | None => []
         end
  ∧ saved_offers (exec (detected (resolved master_pid)) s) = saved_offers s
  ∧ saved_slaves (exec (detected (resolved master_pid)) s) = saved_slaves s
  ∧ last (events (exec (detected (resolved master_pid)) s)) = Some (Dispatch call_detect).
Proof.
  intros Hab. unfold exec, outcome, detected.
  rewrite ignore_if_aborted_runs by exact Hab.
  unfold _do_registration.
  cbv [mbind mret Py_bind Py_ret bind ret get log send camel_call emit modify].
  destruct s as [p fw m con ab fo offers slaves es]; simpl in *.
  destruct con, master_pid as [q |]; simpl;
    try destruct (String.eqb _ _); simpl;
    rewrite ?last_snoc;
    repeat (rewrite ?sends_app, ?callbacks_app; simpl);
    rewrite ?app_nil_r; repeat split; reflexivity.
Qed.


(** X7: a detector failure only makes the process try again: with [aborted]
    clear, [detected] on a failed future logs a warning and schedules
    [detect] after MASTER_DETECTION_RETRY_SECONDS (10 s); the master, the
    flags and the tables stay as they were, no registration is sent and
    [detect] is not dispatched at once. *)
Theorem detected_failed_retries (error : string) (s : t) :
  aborted s = false →
  detected (failed error) s
  = (Returns tt,
     set_events
       (events s
        ++ [ Log WARNING "Experienced an error detecting master: %s, retrying...";
             Delay 10 call_detect ]) s).
Proof.
  intros Hab. unfold detected. rewrite ignore_if_aborted_runs by exact Hab.
  cbv [mbind Py_bind bind log emit modify]. simpl.
  rewrite <- app_assoc. destruct s; reflexivity.
Qed.


End Detection.

Lemma detected_failed_retries_witness :
  last (SchedulerProcess.events
          (exec (SchedulerProcess.detected (SchedulerProcess.failed "timeout"))
             Scenario.registered))
  = Some (Delay 10 call_detect).
Proof.
  unfold exec.
  rewrite (detected_failed_retries "timeout" Scenario.registered eq_refl).
  reflexivity.
Defined.

Lemma detected_resolved_witness :
  SchedulerProcess.sends
    (SchedulerProcess.events
       (exec (SchedulerProcess.detected (SchedulerProcess.resolved (Some Scenario.slave_pid)))
          Scenario.registered))
  = SchedulerProcess.sends (SchedulerProcess.events Scenario.registered)
    ++ [(Some Scenario.slave_pid,
         ReregisterFrameworkMessage
           (mkFrameworkInfo (Some (mkFrameworkID "f-1")) "" "") false)]
  ∧ SchedulerProcess.callbacks
      (SchedulerProcess.events
         (exec (SchedulerProcess.detected
                  (SchedulerProcess.resolved (Some Scenario.slave_pid)))
            Scenario.registered))
    = SchedulerProcess.callbacks (SchedulerProcess.events Scenario.registered)
      ++ [disconnected_cb].
Proof.
  pose proof (detected_resolved (Some Scenario.slave_pid) Scenario.registered eq_refl)
    as (_ & _ & _ & Hcb & Hsend & _).
  split; [exact Hsend | exact Hcb].
Defined.


Section Connection.

Import SchedulerProcess.

Variable PID_from_string : string → option PID.
Variable message_hash : SlaveID → option Z.

(** X8: registration followed by a change of master.  After the master's
    FrameworkRegistered answer with a non-empty framework id, the detection
    of another master calls [disconnected], leaves the process disconnected
    and sends the new master a ReregisterFrameworkMessage that carries the
    assigned id and failover = false. *)
Theorem reregisters_after_master_change (from_pid new_master : PID) (fid : FrameworkID)
    (info : string) (s : t) :
  connected s = false →
  aborted s = false →
  master s = Some from_pid →
  FrameworkID_value fid ≠ "" →
  sends
    (events
       (exec (detected (resolved (Some new_master)))
          (exec (receive PID_from_string from_pid (FrameworkRegisteredMessage fid info)) s)))
  = sends (events s)
    ++ [(Some new_master,
         ReregisterFrameworkMessage
           (set_framework_id_value (FrameworkID_value fid) (framework s)) false)]
  ∧ callbacks
      (events
         (exec (detected (resolved (Some new_master)))
            (exec (receive PID_from_string from_pid (FrameworkRegisteredMessage fid info)) s)))
    = callbacks (events s) ++ [registered_cb fid info; disconnected_cb]
  ∧ connected
      (exec (detected (resolved (Some new_master)))
         (exec (receive PID_from_string from_pid (FrameworkRegisteredMessage fid info)) s))
    = false
  ∧ master
      (exec (detected (resolved (Some new_master)))
         (exec (receive PID_from_string from_pid (FrameworkRegisteredMessage fid info)) s))
    = Some new_master.
Proof.
  intros Hdis Hab Hm Hfid. simpl. unfold exec at 2 4 6 8.
  rewrite registered_accepted by assumption. simpl.
  unfold exec, detected.
  rewrite ignore_if_aborted_runs by exact Hab.
  unfold _do_registration.
  cbv [mbind mret Py_bind Py_ret bind ret get log send camel_call emit modify]. simpl.
  apply String.eqb_neq in Hfid. rewrite Hfid. simpl.
  repeat (rewrite ?sends_app, ?callbacks_app; simpl).
  rewrite ?app_nil_r, <- ?app_assoc. repeat split; reflexivity.
Qed.

(** X9: the answer to a re-registration.  A FrameworkReregistered message
    from the master, at a process that is neither connected nor aborted,
    connects the process, clears [failover] and calls [reregistered] when its
    framework id is the one the process holds; with any other id (or when the
    process holds none) the handler's assertion fails: AssertionError, and
    the process stays as it was, disconnected. *)
Theorem reregistered_checks_framework_id (from_pid : PID) (fid : FrameworkID)
    (info : string) (s : t) :
  connected s = false →
  aborted s = false →
  master s = Some from_pid →
  receive PID_from_string from_pid (FrameworkReregisteredMessage fid info) s
  = if bool_decide (fw_id (framework s) = Some fid)
    then (Returns tt,
          set_events (events s ++ [Callback (reregistered_cb info)])
            (set_failover false (set_connected true s)))
    else (Raises AssertionError, s).
Proof.
  intros Hdis Hab Hm. simpl. unfold reregistered.
  rewrite ignore_if_aborted_runs by exact Hab.
  rewrite bind_run. cbv [get]. rewrite Hdis.
  rewrite bind_run, valid_origin_master by exact Hm. simpl.
  rewrite bind_run. case_bool_decide; reflexivity.
Qed.

Lemma run_keeps_disconnected (c : command) :
  sets_connected c = false →
  preserves (λ s, connected s = false) (run PID_from_string message_hash c).
Proof.
  intros Hc.
  destruct c as [| | f | backoff | from_pid m | | | args | | | | | |]; simpl;
    try destruct m; try discriminate Hc; simpl;
    unfold initialize, detect, detected, _do_registration,
      resource_offers, rescind_offer, status_update, status_update_acknowledgement,
      lost_slave, framework_message, error, stop, abort, abort_method, kill_task,
      request_resources, launch_tasks, revive_offers, send_framework_message,
      reconcile_tasks, check_task, consume_offer, promote_slave, pop_saved_offers,
      pop_saved_slaves, save_offer, _local_lost, global, ignore_if_aborted,
      ignore_if_disconnected, valid_origin, log, send, camel_call, emit;
    through_method ltac:(first [assumption | reflexivity]).
Qed.

(** X10: only a registration answer connects.  If a command takes the
    process from disconnected to connected, the command is the arrival of a
    FrameworkRegistered or FrameworkReregistered message, its sender is the
    current master, and the process is not aborted. *)
Theorem connected_only_by_registration (c : command) (s : t) :
  connected s = false →
  connected (exec (run PID_from_string message_hash c) s) = true →
  aborted s = false
  ∧ ∃ from_pid m,
      c = Receive from_pid m
      ∧ sets_connected c = true
      ∧ master s = Some from_pid.
Proof.
  intros Hdis Hcon.
  destruct (sets_connected c) eqn:Hc.
  - destruct c as [| | | | from_pid m | | | | | | | | |]; try discriminate Hc.
    assert (aborted s = false ∧ master s = Some from_pid) as [Hab Hm].
    { destruct (aborted s) eqn:Hab.
      - destruct (receive_dropped_when_aborted PID_from_string from_pid m s Hab)
          as [text Heq].
        unfold exec in Hcon. simpl in Hcon, Heq. rewrite Heq in Hcon. simpl in Hcon.
        congruence.
      - split; [reflexivity |].
        destruct (decide (master s = Some from_pid)) as [Hm | Hne]; [exact Hm | exfalso].
        unfold exec in Hcon.
        destruct m; try discriminate Hc; simpl in Hcon;
          unfold registered, reregistered in Hcon;
          rewrite ignore_if_aborted_runs in Hcon by exact Hab;
          rewrite bind_run in Hcon; cbv [get] in Hcon; rewrite Hdis in Hcon;
          rewrite bind_run, valid_origin_other in Hcon by exact Hne;
          simpl in Hcon; congruence. }
    split; [exact Hab |]. exists from_pid, m. auto.
  - pose proof (run_keeps_disconnected c Hc s Hdis) as Hstay. simpl in Hstay. congruence.
Qed.


End Connection.

Lemma connected_only_by_registration_witness :
  SchedulerProcess.aborted Scenario.registering = false
  ∧ ∃ from_pid m,
      SchedulerProcess.Receive Scenario.master_pid
        (FrameworkRegisteredMessage (mkFrameworkID "f-1") "master-info")
      = SchedulerProcess.Receive from_pid m
      ∧ sets_connected
          (SchedulerProcess.Receive Scenario.master_pid
             (FrameworkRegisteredMessage (mkFrameworkID "f-1") "master-info")) = true
      ∧ SchedulerProcess.master Scenario.registering = Some from_pid.
Proof.
  apply (connected_only_by_registration Scenario.parse Scenario.unhashable
           (SchedulerProcess.Receive Scenario.master_pid
              (FrameworkRegisteredMessage (mkFrameworkID "f-1") "master-info"))
           Scenario.registering); reflexivity.
Defined.

Lemma reregisters_after_master_change_witness :
  SchedulerProcess.sends
    (SchedulerProcess.events
       (exec (SchedulerProcess.detected (SchedulerProcess.resolved (Some Scenario.slave_pid)))
          (exec (SchedulerProcess.receive Scenario.parse Scenario.master_pid
                   (FrameworkRegisteredMessage (mkFrameworkID "f-1") "master-info"))
             Scenario.registering)))
  = SchedulerProcess.sends (SchedulerProcess.events Scenario.registering)
    ++ [(Some Scenario.slave_pid,
         ReregisterFrameworkMessage
           (set_framework_id_value "f-1" (SchedulerProcess.framework Scenario.registering))
           false)].
Proof.
  apply (reregisters_after_master_change Scenario.parse Scenario.master_pid
           Scenario.slave_pid (mkFrameworkID "f-1") "master-info" Scenario.registering);
    [reflexivity | reflexivity | reflexivity | discriminate].
Defined.

Lemma reregistered_checks_framework_id_witness :
  SchedulerProcess.receive Scenario.parse Scenario.master_pid
    (FrameworkReregisteredMessage (mkFrameworkID "f-1") "master-info") Scenario.registering
  = (Raises AssertionError, Scenario.registering).
Proof.
  rewrite (reregistered_checks_framework_id Scenario.parse Scenario.master_pid
             (mkFrameworkID "f-1") "master-info" Scenario.registering
             eq_refl eq_refl eq_refl).
  reflexivity.
Defined.


Section Frame.

Import SchedulerProcess.

Variable PID_from_string : string → option PID.
Variable message_hash : SlaveID → option Z.

(** Every method, unfolded down to the primitive operations. *)
Ltac unfold_methods :=
  unfold initialize, detect, detected, _do_registration, registered, reregistered,
    resource_offers, rescind_offer, status_update, status_update_acknowledgement,
    lost_slave, framework_message, error, stop, abort, abort_method, kill_task,
    request_resources, launch_tasks, revive_offers, send_framework_message,
    reconcile_tasks, check_task, consume_offer, promote_slave, pop_saved_offers,
    pop_saved_slaves, save_offer, _local_lost, global, ignore_if_aborted,
    ignore_if_disconnected, valid_origin, log, send, camel_call, emit.

(** X11: each field has few writers.  Running any command leaves the slave
    cache as it was unless the command is [launch_tasks] or the arrival of a
    LostSlave message; the offer table unless it is [launch_tasks] or the
    arrival of ResourceOffers or RescindResourceOffer; [master] unless it is
    [detected]; the framework record unless it is the arrival of
    FrameworkRegistered; and the process's own address always.  This holds
    also when the command raises. *)
Theorem fields_written_only_where_assigned (c : command) (s : t) :
  (writes_saved_slaves c = false →
   saved_slaves (exec (run PID_from_string message_hash c) s) = saved_slaves s)
  ∧ (writes_saved_offers c = false →
     saved_offers (exec (run PID_from_string message_hash c) s) = saved_offers s)
  ∧ (writes_master c = false →
     master (exec (run PID_from_string message_hash c) s) = master s)
  ∧ (writes_framework c = false →
     framework (exec (run PID_from_string message_hash c) s) = framework s)
  ∧ pid (exec (run PID_from_string message_hash c) s) = pid s.
Proof.
  split; [| split; [| split; [| split]]].
  - intros Hc.
    enough (preserves (λ s', saved_slaves s' = saved_slaves s)
              (run PID_from_string message_hash c)) as H by (apply H; reflexivity).
    destruct c as [| | f | backoff | from_pid m | | | args | | | | | |]; simpl;
      try destruct m; try discriminate Hc; simpl; unfold_methods;
      through_method ltac:(assumption).
  - intros Hc.
    enough (preserves (λ s', saved_offers s' = saved_offers s)
              (run PID_from_string message_hash c)) as H by (apply H; reflexivity).
    destruct c as [| | f | backoff | from_pid m | | | args | | | | | |]; simpl;
      try destruct m; try discriminate Hc; simpl; unfold_methods;
      through_method ltac:(assumption).
  - intros Hc.
    enough (preserves (λ s', master s' = master s)
              (run PID_from_string message_hash c)) as H by (apply H; reflexivity).
    destruct c as [| | f | backoff | from_pid m | | | args | | | | | |]; simpl;
      try destruct m; try discriminate Hc; simpl; unfold_methods;
      through_method ltac:(assumption).
  - intros Hc.
    enough (preserves (λ s', framework s' = framework s)
              (run PID_from_string message_hash c)) as H by (apply H; reflexivity).
    destruct c as [| | f | backoff | from_pid m | | | args | | | | | |]; simpl;
      try destruct m; try discriminate Hc; simpl; unfold_methods;
      through_method ltac:(assumption).
  - enough (preserves (λ s', pid s' = pid s)
              (run PID_from_string message_hash c)) as H by (apply H; reflexivity).
    destruct c as [| | f | backoff | from_pid m | | | args | | | | | |]; simpl;
      try destruct m; simpl; unfold_methods;
      through_method ltac:(assumption).
Qed.

Lemma launch_tasks_disconnected_sends_nothing (offer_ids : list OfferID)
    (tasks : list TaskInfo) (filters : option Filters) (s : t) :
  connected s = false →
  exec (launch_tasks offer_ids tasks filters) s = s.
Proof.
  intros Hdis. unfold exec, launch_tasks. cbv [mbind Py_bind bind get]. rewrite Hdis. simpl.
  destruct tasks as [| task tasks]; reflexivity.
Qed.

(** The commands that neither send nor stand behind the connection guard:
    their text has no [send] at all. *)
Lemma run_without_send (c : command) (sent : list (option PID * outbound)) :
  sends_without_connected_guard c = false →
  behind_connected_guard c = false →
  writes_saved_slaves c = false →
  preserves (λ s, sends (events s) = sent) (run PID_from_string message_hash c).
Proof.
  intros Hc Hguard Hlaunch.
  destruct c as [| | f | backoff | from_pid m | | | args | | | | | |];
    try discriminate Hc; try discriminate Hguard; try discriminate Hlaunch;
    simpl; try destruct m; try discriminate Hguard; simpl; unfold_methods;
    through_method ltac:(
      first [ assumption
            | rewrite sends_app; simpl; rewrite app_nil_r; assumption ]).
Qed.

(** X12: no traffic while disconnected.  While [connected] is clear, running
    any command other than [detected], [_do_registration], [stop] and
    [status_update_acknowledgement] hands nothing to [send], whether the
    command returns or raises. *)
Theorem disconnected_sends_nothing (c : command) (s : t) :
  connected s = false →
  sends_without_connected_guard c = false →
  sends (events (exec (run PID_from_string message_hash c) s)) = sends (events s).
Proof.
  intros Hdis Hc.
  destruct (behind_connected_guard c) eqn:Hguard.
  - assert (run PID_from_string message_hash c s
            = (Returns tt,
               set_events
                 (events s
                  ++ [Log INFO
                        "Ignoring message from because the scheduler driver is disconnected."])
                 s)) as Heq.
    { destruct c as [| | | | from_pid m | | | | | | | | |]; try discriminate Hguard;
        try destruct m; try discriminate Hguard; simpl;
        apply ignore_if_disconnected_stops, Hdis. }
    unfold exec. rewrite Heq. simpl. rewrite sends_app. simpl. apply app_nil_r.
  - destruct (writes_saved_slaves c) eqn:Hlaunch.
    + destruct c as [| | | | from_pid m | | | | | | | | |]; try discriminate Hlaunch.
      * destruct m; discriminate.
      * cbn [run]. rewrite launch_tasks_disconnected_sends_nothing by exact Hdis.
        reflexivity.
    + apply (run_without_send c (sends (events s)) Hc Hguard Hlaunch s). reflexivity.
Qed.


End Frame.

Lemma disconnected_sends_nothing_witness :
  SchedulerProcess.sends
    (SchedulerProcess.events
       (exec (SchedulerProcess.run Scenario.parse Scenario.unhashable
                (SchedulerProcess.KillTask (mkTaskID "t-1"))) Scenario.registering))
  = SchedulerProcess.sends (SchedulerProcess.events Scenario.registering).
Proof.
  apply (disconnected_sends_nothing Scenario.parse Scenario.unhashable
           (SchedulerProcess.KillTask (mkTaskID "t-1")) Scenario.registering);
    reflexivity.
Defined.


Section DriverCalls.

Import PesosSchedulerDriver.

Variable from_uri : string → option Detector.
Variable scheduler_pid : PID.
Variable PID_from_string : string → option PID.
Variable message_hash : SlaveID → option Z.

Ltac unfold_calls :=
  unfold exec, outcome, call, run, start, stop, abort, join, requestResources,
    declineOffer, launch_tasks, launchTasks, killTask, reviveOffers, sendFrameworkMessage,
    reconcileTasks, command;
  cbv [mbind mret Py_bind Py_ret bind ret get modify raise assert dispatch notify emit].

(** X13: a driver that is not running refuses commands.  Every method that
    begins with the RUNNING test ([abort], [join], [requestResources],
    [launchTasks], [killTask], [declineOffer], [reviveOffers],
    [sendFrameworkMessage], [reconcileTasks]), called while the status is not
    DRIVER_RUNNING, returns the status as it is and does nothing: no dispatch
    to the process, no notification, no change of any field. *)
Theorem not_running_refuses (m : method) (d : t) :
  needs_running m = true →
  status d ≠ Some DRIVER_RUNNING →
  call from_uri scheduler_pid m d = (Returns (status d), d).
Proof.
  intros Hm Hst.
  destruct m; try discriminate Hm; unfold_calls;
    rewrite bool_decide_eq_true_2 by exact Hst; reflexivity.
Qed.

Lemma call_keeps_started (m : method) (d : t) :
  status d ≠ Some DRIVER_NOT_STARTED →
  status (exec (call from_uri scheduler_pid m) d) ≠ Some DRIVER_NOT_STARTED
  ∧ (status d ≠ Some DRIVER_RUNNING →
     status (exec (call from_uri scheduler_pid m) d) ≠ Some DRIVER_RUNNING)
  ∧ spawns (effects (exec (call from_uri scheduler_pid m) d)) = spawns (effects d).
Proof.
  intros Hst.
  destruct d as [st proc det uri fw eff]; simpl in Hst.
  destruct m; unfold_calls; simpl;
    repeat (case_match; simpl in *; simplify_eq);
    repeat split; try intros Hrun;
    repeat case_bool_decide; simplify_eq; try tauto; try congruence.
  all: repeat match goal with
              | H : bool_decide _ = true |- _ => apply bool_decide_eq_true in H
              | H : bool_decide _ = false |- _ => apply bool_decide_eq_false in H
              end; try tauto; try congruence.
  all: unfold spawns; simpl; rewrite ?List.filter_app, ?length_app; simpl; lia.
Qed.

(** X14: a driver starts at most once.  Once the status has left
    DRIVER_NOT_STARTED, no sequence of driver calls and process steps brings
    it back there or makes the driver spawn a process again; and once it has
    also left DRIVER_RUNNING (it is ABORTED, STOPPED, or the [None] that
    [run] stores after a failed [start]) it is never RUNNING again. *)
Theorem driver_never_restarts (acts : list action) (d : t) :
  status d ≠ Some DRIVER_NOT_STARTED →
  status (steps from_uri scheduler_pid PID_from_string message_hash acts d)
  ≠ Some DRIVER_NOT_STARTED
  ∧ (status d ≠ Some DRIVER_RUNNING →
     status (steps from_uri scheduler_pid PID_from_string message_hash acts d)
     ≠ Some DRIVER_RUNNING)
  ∧ spawns (effects (steps from_uri scheduler_pid PID_from_string message_hash acts d))
    = spawns (effects d).
Proof.
  revert d. induction acts as [| a acts IH]; intros d Hst; simpl.
  - auto.
  - assert (status (step from_uri scheduler_pid PID_from_string message_hash a d)
            ≠ Some DRIVER_NOT_STARTED
            ∧ (status d ≠ Some DRIVER_RUNNING →
               status (step from_uri scheduler_pid PID_from_string message_hash a d)
               ≠ Some DRIVER_RUNNING)
            ∧ spawns (effects (step from_uri scheduler_pid PID_from_string message_hash a d))
              = spawns (effects d)) as (H1 & H2 & H3).
    { destruct a as [m | c]; simpl.
      - apply call_keeps_started, Hst.
      - destruct (scheduler_process d); simpl; auto. }
    destruct (IH _ H1) as (I1 & I2 & I3).
    split; [exact I1 |]. split; [auto | congruence].
Qed.

End DriverCalls.

Lemma not_running_refuses_witness :
  PesosSchedulerDriver.call Scenario.no_detector Scenario.scheduler_pid
    (PesosSchedulerDriver.m_killTask (mkTaskID "t-1")) Scenario.aborted_driver
  = (Returns (Some PesosSchedulerDriver.DRIVER_ABORTED), Scenario.aborted_driver).
Proof.
  apply (not_running_refuses Scenario.no_detector Scenario.scheduler_pid
           (PesosSchedulerDriver.m_killTask (mkTaskID "t-1")) Scenario.aborted_driver);
    [reflexivity | discriminate].
Defined.

Lemma driver_never_restarts_witness :
  PesosSchedulerDriver.status
    (PesosSchedulerDriver.steps Scenario.no_detector Scenario.scheduler_pid Scenario.parse
       Scenario.unhashable
       [ PesosSchedulerDriver.by_driver (PesosSchedulerDriver.m_stop false);
         PesosSchedulerDriver.by_driver PesosSchedulerDriver.m_start;
         PesosSchedulerDriver.by_driver PesosSchedulerDriver.m_run ]
       Scenario.aborted_driver)
  ≠ Some PesosSchedulerDriver.DRIVER_RUNNING.
Proof.
  apply (driver_never_restarts Scenario.no_detector Scenario.scheduler_pid Scenario.parse
           Scenario.unhashable
           [ PesosSchedulerDriver.by_driver (PesosSchedulerDriver.m_stop false);
             PesosSchedulerDriver.by_driver PesosSchedulerDriver.m_start;
             PesosSchedulerDriver.by_driver PesosSchedulerDriver.m_run ]
           Scenario.aborted_driver);
    discriminate.
Defined.


Section LaunchSuccess.

Import SchedulerProcess.

Lemma run_pair {S A} (c : Py S A) (s : S) : c s = (outcome c s, exec c s).
Proof. unfold outcome, exec. destruct (c s); reflexivity. Qed.

Lemma same_but_tables_refl (s : t) : same_but_tables s s.
Proof. repeat split. Qed.

Lemma same_but_tables_trans (s2 s1 s : t) :
  same_but_tables s2 s1 → same_but_tables s1 s → same_but_tables s2 s.
Proof.
  unfold same_but_tables. intros (? & ? & ? & ? & ? & ?) (? & ? & ? & ? & ? & ?).
  repeat split; congruence.
Qed.

(** One task of the inner loop: it always returns, may add a log line, and
    touches only the slave cache. *)
Lemma promote_slave_step (oid : OfferID) (task : TaskInfo) (s : t) :
  outcome (promote_slave oid task) s = Returns tt
  ∧ saved_offers (exec (promote_slave oid task) s) = saved_offers s
  ∧ same_but_tables (exec (promote_slave oid task) s) s
  ∧ saved_slaves (exec (promote_slave oid task) s)
    = match saved_offers s !! OfferID_value oid with
      | Some slaves => promoted slaves (saved_slaves s) task
      | None => saved_slaves s
      end.
Proof.
  unfold outcome, exec, promote_slave, promoted, same_but_tables.
  cbv [mbind Py_bind bind get log emit modify].
  destruct (saved_offers s !! OfferID_value oid) as [slaves |]; simpl;
    [destruct (slaves !! SlaveID_value (task_slave_id task)); simpl |];
    rewrite ?sends_app, ?callbacks_app; simpl; rewrite ?app_nil_r; repeat split.
Qed.

Lemma promote_slaves_loop (oid : OfferID) (tasks : list TaskInfo) (s : t) :
  outcome (for_each tasks (promote_slave oid)) s = Returns tt
  ∧ saved_offers (exec (for_each tasks (promote_slave oid)) s) = saved_offers s
  ∧ same_but_tables (exec (for_each tasks (promote_slave oid)) s) s
  ∧ saved_slaves (exec (for_each tasks (promote_slave oid)) s)
    = match saved_offers s !! OfferID_value oid with
      | Some slaves => promoted_all slaves (saved_slaves s) tasks
      | None => saved_slaves s
      end.
Proof.
  revert s. induction tasks as [| task tasks IH]; intros s.
  - simpl. split; [reflexivity |]. split; [reflexivity |].
    split; [apply same_but_tables_refl |]. destruct (saved_offers s !! _); reflexivity.
  - destruct (promote_slave_step oid task s) as (Hout & Hoff & Hsame & Hcache).
    specialize (IH (exec (promote_slave oid task) s)).
    destruct IH as (IHout & IHoff & IHsame & IHcache).
    unfold outcome, exec in *. cbn [for_each]. rewrite bind_run.
    rewrite (run_pair (promote_slave oid task) s).
    unfold outcome, exec. rewrite Hout.
    split; [exact IHout |]. split; [congruence |].
    split; [eapply same_but_tables_trans; eassumption |].
    rewrite IHcache, Hoff, Hcache.
    destruct (saved_offers s !! OfferID_value oid); reflexivity.
Qed.

(** One offer id of the outer loop. *)
Lemma consume_offer_step (tasks : list TaskInfo) (oid : OfferID) (s : t) :
  same_but_tables (exec (consume_offer tasks oid) s) s
  ∧ match saved_offers s !! OfferID_value oid with
    | Some slaves =>
        outcome (consume_offer tasks oid) s = Returns tt
        ∧ saved_offers (exec (consume_offer tasks oid) s)
          = delete (OfferID_value oid) (saved_offers s)
        ∧ saved_slaves (exec (consume_offer tasks oid) s)
          = promoted_all slaves (saved_slaves s) tasks
    | None =>
        outcome (consume_offer tasks oid) s = Raises (KeyError (KStr (OfferID_value oid)))
    end.
Proof.
  destruct (promote_slaves_loop oid tasks s) as (Hout & Hoff & Hsame & Hcache).
  unfold outcome, exec in *. unfold consume_offer. rewrite bind_run.
  rewrite (run_pair (for_each tasks (promote_slave oid)) s).
  unfold outcome, exec. rewrite Hout.
  rewrite bind_run. unfold pop_saved_offers.
  rewrite bind_run. cbv [get]. rewrite Hoff.
  destruct (saved_offers s !! OfferID_value oid) as [slaves |]; simpl.
  - split; [exact Hsame |]. rewrite Hoff. auto.
  - split; [exact Hsame | reflexivity].
Qed.

(** The outer loop over distinct offer ids that are all in the table. *)
Lemma consume_offers_known (tasks : list TaskInfo) (offer_ids : list OfferID) (s : t) :
  NoDup (OfferID_value <$> offer_ids) →
  Forall (λ oid, is_Some (saved_offers s !! OfferID_value oid)) offer_ids →
  outcome (for_each offer_ids (consume_offer tasks)) s = Returns tt
  ∧ same_but_tables (exec (for_each offer_ids (consume_offer tasks)) s) s
  ∧ ∀ key,
      saved_offers (exec (for_each offer_ids (consume_offer tasks)) s) !! key
      = if bool_decide (key ∈ OfferID_value <$> offer_ids) then None
        else saved_offers s !! key.
Proof.
  revert s. induction offer_ids as [| oid offer_ids IH]; intros s Hnodup Hknown.
  - simpl. split; [reflexivity |]. split; [apply same_but_tables_refl |].
    intros key. reflexivity.
  - rewrite fmap_cons in Hnodup. apply NoDup_cons in Hnodup as [Hfresh Hnodup].
    apply Forall_cons in Hknown as [[slaves Hoid] Hknown].
    destruct (consume_offer_step tasks oid s) as (Hsame & Hstep).
    rewrite Hoid in Hstep. destruct Hstep as (Hout & Hoff & _).
    specialize (IH (exec (consume_offer tasks oid) s) Hnodup).
    destruct IH as (IHout & IHsame & IHoff).
    { rewrite Hoff. rewrite Forall_forall in Hknown |- *. intros oid' Hin.
      rewrite lookup_delete_ne; [apply Hknown, Hin |].
      intros Heq. apply Hfresh. rewrite Heq. apply list_elem_of_fmap. eauto. }
    unfold outcome, exec in *. cbn [for_each]. rewrite bind_run.
    rewrite (run_pair (consume_offer tasks oid) s).
    unfold outcome, exec. rewrite Hout.
    split; [exact IHout |].
    split; [eapply same_but_tables_trans; eassumption |].
    intros key. rewrite IHoff, Hoff, fmap_cons.
    destruct (decide (key = OfferID_value oid)) as [-> | Hne].
    + rewrite lookup_delete_eq.
      rewrite (bool_decide_eq_true_2 (OfferID_value oid ∈ _ :: _)) by apply list_elem_of_here.
      case_bool_decide; reflexivity.
    + rewrite lookup_delete_ne by congruence.
      destruct (decide (key ∈ OfferID_value <$> offer_ids)) as [Hin | Hnin].
      * rewrite (bool_decide_eq_true_2 (key ∈ OfferID_value <$> offer_ids)) by exact Hin.
        rewrite bool_decide_eq_true_2 by (apply list_elem_of_further; exact Hin).
        reflexivity.
      * rewrite (bool_decide_eq_false_2 (key ∈ OfferID_value <$> offer_ids)) by exact Hnin.
        rewrite bool_decide_eq_false_2; [reflexivity |].
        intros [Heq | Hin]%elem_of_cons; [congruence | contradiction].
Qed.

(** The outer loop fails on the first offer id that is not in the table
    when its turn comes: an id that never was there, or one that an earlier
    turn has consumed. *)
Lemma consume_offers_unknown (tasks : list TaskInfo) (offer_ids : list OfferID) (s : t) :
  ¬ (NoDup (OfferID_value <$> offer_ids)
     ∧ Forall (λ oid, is_Some (saved_offers s !! OfferID_value oid)) offer_ids) →
  (∃ key,
      key ∈ OfferID_value <$> offer_ids
      ∧ outcome (for_each offer_ids (consume_offer tasks)) s = Raises (KeyError (KStr key)))
  ∧ same_but_tables (exec (for_each offer_ids (consume_offer tasks)) s) s.
Proof.
  revert s. induction offer_ids as [| oid offer_ids IH]; intros s Hbad.
  - exfalso. apply Hbad. split; [apply NoDup_nil_2 | apply Forall_nil_2].
  - destruct (consume_offer_step tasks oid s) as (Hsame & Hstep).
    unfold outcome, exec in *. cbn [for_each]. rewrite bind_run.
    rewrite (run_pair (consume_offer tasks oid) s). unfold outcome, exec.
    destruct (saved_offers s !! OfferID_value oid) as [slaves |] eqn:Hoid.
    + destruct Hstep as (Hout & Hoff & _). rewrite Hout.
      destruct (IH (snd (consume_offer tasks oid s))) as ((key & Hin & Hraise) & IHsame).
      { intros [Hnodup Hknown]. apply Hbad. rewrite fmap_cons.
        rewrite Hoff in Hknown. rewrite Forall_forall in Hknown.
        split.
        - apply NoDup_cons. split; [| exact Hnodup].
          intros [oid' [Heq Hin]]%list_elem_of_fmap.
          destruct (Hknown oid' Hin) as [x Hx].
          rewrite <- Heq, lookup_delete_eq in Hx. discriminate.
        - apply Forall_cons. split; [eauto |].
          rewrite Forall_forall. intros oid' Hin.
          destruct (Hknown oid' Hin) as [x Hx].
          apply lookup_delete_Some in Hx as [_ Hx]. eauto. }
      split.
      * exists key. split; [apply list_elem_of_further, Hin | exact Hraise].
      * eapply same_but_tables_trans; eassumption.
    + rewrite Hstep. simpl. split; [| exact Hsame].
      exists (OfferID_value oid). split; [apply list_elem_of_here |].
      reflexivity.
Qed.

(** X15: when a connected [launch_tasks] succeeds.  For tasks that pass the
    sanity checks, [launch_tasks] returns exactly when the offer ids are
    pairwise distinct and all in the offer table.  It then removes just these
    offers from the table and sends the master one LaunchTasksMessage with
    the framework id, the checked tasks, the filters (empty when none were
    given) and the offer ids; otherwise it raises [KeyError] for one of the
    offer ids and sends nothing.  No callback is made either way. *)
Theorem launch_tasks_consumes_offers (offer_ids : list OfferID) (tasks tasks' : list TaskInfo)
    (filters : option Filters) (s : t) :
  connected s = true →
  for_each_update tasks check_task s = (Returns tasks', s) →
  callbacks (events (exec (launch_tasks offer_ids tasks filters) s)) = callbacks (events s)
  ∧ (NoDup (OfferID_value <$> offer_ids)
     ∧ Forall (λ oid, is_Some (saved_offers s !! OfferID_value oid)) offer_ids →
     outcome (launch_tasks offer_ids tasks filters) s = Returns tt
     ∧ (∀ key,
          saved_offers (exec (launch_tasks offer_ids tasks filters) s) !! key
          = if bool_decide (key ∈ OfferID_value <$> offer_ids) then None
            else saved_offers s !! key)
     ∧ sends (events (exec (launch_tasks offer_ids tasks filters) s))
       = sends (events s)
         ++ [(master s,
              LaunchTasksMessage (framework_id (framework s)) tasks'
                (default (mkFilters "") filters) offer_ids)])
  ∧ (¬ (NoDup (OfferID_value <$> offer_ids)
        ∧ Forall (λ oid, is_Some (saved_offers s !! OfferID_value oid)) offer_ids) →
     (∃ key,
         key ∈ OfferID_value <$> offer_ids
         ∧ outcome (launch_tasks offer_ids tasks filters) s = Raises (KeyError (KStr key)))
     ∧ sends (events (exec (launch_tasks offer_ids tasks filters) s)) = sends (events s)).
Proof.
  intros Hcon Hchecked.
  assert (Hrun : launch_tasks offer_ids tasks filters s
    = match for_each offer_ids (consume_offer tasks') s with
      | (Returns _, s1) =>
          send (master s1)
            (LaunchTasksMessage (framework_id (framework s)) tasks'
               (default (mkFilters "") filters) offer_ids) s1
      | (Raises e, s1) => (Raises e, s1)
      | (Blocks, s1) => (Blocks, s1)
      end).
  { unfold launch_tasks. rewrite bind_run. cbv [get]. rewrite Hcon. simpl.
    rewrite bind_run, Hchecked. rewrite bind_run. cbv [get].
    rewrite bind_run. destruct (for_each offer_ids (consume_offer tasks') s) as [[[] | e |] s1];
      reflexivity. }
  unfold outcome, exec. rewrite Hrun.
  rewrite (run_pair (for_each offer_ids (consume_offer tasks')) s).
  destruct (decide (NoDup (OfferID_value <$> offer_ids)
                    ∧ Forall (λ oid, is_Some (saved_offers s !! OfferID_value oid)) offer_ids))
    as [Hgood | Hbad].
  - destruct (consume_offers_known tasks' offer_ids s (proj1 Hgood) (proj2 Hgood))
      as (Hout & (Hsends & Hcbs & Hmaster & _) & Hoff).
    rewrite Hout. cbv [send emit modify]. simpl.
    rewrite callbacks_app, sends_app, Hsends, Hcbs, Hmaster. simpl. rewrite app_nil_r.
    split; [reflexivity |]. split; [| tauto].
    intros _. split; [reflexivity |]. split; [exact Hoff | reflexivity].
  - destruct (consume_offers_unknown tasks' offer_ids s Hbad)
      as ((key & Hin & Hraise) & (Hsends & Hcbs & _)).
    rewrite Hraise. simpl. split; [exact Hcbs |]. split; [tauto |].
    intros _. split; [eauto | exact Hsends].
Qed.

(** The slave cache after a launch against one offer that is in the table. *)
Lemma launch_tasks_one_offer (oid : OfferID) (tasks tasks' : list TaskInfo)
    (filters : option Filters) (slaves : gmap string PID) (s : t) :
  connected s = true →
  for_each_update tasks check_task s = (Returns tasks', s) →
  saved_offers s !! OfferID_value oid = Some slaves →
  launch_tasks [oid] tasks filters s
  = (Returns tt,
     exec (send (master s)
             (LaunchTasksMessage (framework_id (framework s)) tasks'
                (default (mkFilters "") filters) [oid]))
       (exec (consume_offer tasks' oid) s))
  ∧ saved_slaves (exec (launch_tasks [oid] tasks filters) s)
    = promoted_all slaves (saved_slaves s) tasks'
  ∧ saved_offers (exec (launch_tasks [oid] tasks filters) s)
    = delete (OfferID_value oid) (saved_offers s).
Proof.
  intros Hcon Hchecked Hoid.
  destruct (consume_offer_step tasks' oid s) as ((_ & _ & Hmaster & _) & Hstep).
  rewrite Hoid in Hstep. destruct Hstep as (Hout & Hoff & Hcache).
  assert (Hrun : launch_tasks [oid] tasks filters s
    = (Returns tt,
       exec (send (master s)
               (LaunchTasksMessage (framework_id (framework s)) tasks'
                  (default (mkFilters "") filters) [oid]))
         (exec (consume_offer tasks' oid) s))).
  { unfold launch_tasks. rewrite bind_run. cbv [get]. rewrite Hcon. simpl.
    rewrite bind_run, Hchecked. rewrite bind_run. cbv [get].
    rewrite bind_run. cbn [for_each]. rewrite bind_run.
    rewrite (run_pair (consume_offer tasks' oid) s). rewrite Hout.
    cbv [mret Py_ret ret]. rewrite bind_run. cbv [get]. rewrite Hmaster. reflexivity. }
  split; [exact Hrun |].
  assert (Hexec : exec (launch_tasks [oid] tasks filters) s
    = exec (send (master s)
              (LaunchTasksMessage (framework_id (framework s)) tasks'
                 (default (mkFilters "") filters) [oid]))
        (exec (consume_offer tasks' oid) s)).
  { unfold exec at 1. rewrite Hrun. reflexivity. }
  rewrite Hexec. split; [exact Hcache | exact Hoff].
Qed.

Lemma promoted_all_lookup (slaves : gmap string PID) (tasks : list TaskInfo)
    (cache : gmap pykey PID) (key : pykey) :
  promoted_all slaves cache tasks !! key
  = match key with
    | KStr v =>
        if bool_decide (v ∈ (λ task, SlaveID_value (task_slave_id task)) <$> tasks)
        then match slaves !! v with Some p => Some p | None => cache !! key end
        else cache !! key
    | KSlaveID _ => cache !! key
    end.
Proof.
  revert cache. induction tasks as [| task tasks IH]; intros cache.
  - destruct key; reflexivity.
  - unfold promoted_all in *. cbn [foldl]. rewrite IH. rewrite fmap_cons.
    unfold promoted.
    destruct key as [v | m].
    + destruct (decide (v = SlaveID_value (task_slave_id task))) as [-> | Hne].
      * rewrite (bool_decide_eq_true_2 (_ ∈ _ :: _)) by apply list_elem_of_here.
        destruct (slaves !! SlaveID_value (task_slave_id task)) eqn:Hs;
          [rewrite lookup_insert_eq |]; case_bool_decide; reflexivity.
      * assert (Hcache :
          match slaves !! SlaveID_value (task_slave_id task) with
          | Some p => <[KStr (SlaveID_value (task_slave_id task)) := p]> cache
          | None => cache
          end !! KStr v = cache !! KStr v).
        { destruct (slaves !! SlaveID_value (task_slave_id task)); [| reflexivity].
          apply lookup_insert_ne. congruence. }
        rewrite Hcache.
        destruct (decide (v ∈ (λ task, SlaveID_value (task_slave_id task)) <$> tasks))
          as [Hin | Hnin].
        -- rewrite (bool_decide_eq_true_2 _ Hin).
           rewrite bool_decide_eq_true_2 by (apply list_elem_of_further; exact Hin).
           reflexivity.
        -- rewrite (bool_decide_eq_false_2 _ Hnin).
           rewrite bool_decide_eq_false_2; [reflexivity |].
           intros [Heq | Hin]%elem_of_cons; [congruence | contradiction].
    + destruct (slaves !! SlaveID_value (task_slave_id task)); [| reflexivity].
      apply lookup_insert_ne. discriminate.
Qed.

(** X16: which addresses a launch promotes.  After a connected [launch_tasks]
    against one offer that is in the table, for tasks that pass the sanity
    checks, the slave cache maps a slave id to the address the offer's entry
    holds for it exactly when some task names that slave and the entry has
    it; every other entry of the cache is as before. *)
Theorem launch_tasks_promotes_offer_slaves (oid : OfferID) (tasks tasks' : list TaskInfo)
    (filters : option Filters) (slaves : gmap string PID) (s : t) (v : string) :
  connected s = true →
  for_each_update tasks check_task s = (Returns tasks', s) →
  saved_offers s !! OfferID_value oid = Some slaves →
  saved_slaves (exec (launch_tasks [oid] tasks filters) s) !! KStr v
  = if bool_decide (v ∈ (λ task, SlaveID_value (task_slave_id task)) <$> tasks')
    then match slaves !! v with Some p => Some p | None => saved_slaves s !! KStr v end
    else saved_slaves s !! KStr v.
Proof.
  intros Hcon Hchecked Hoid.
  destruct (launch_tasks_one_offer oid tasks tasks' filters slaves s Hcon Hchecked Hoid)
    as (_ & Hcache & _).
  rewrite Hcache. apply (promoted_all_lookup slaves tasks' (saved_slaves s) (KStr v)).
Qed.

End LaunchSuccess.


Section SanityChecks.

Import SchedulerProcess.

Lemma check_task_result (task : TaskInfo) (s : t) :
  check_task task s
  = if passes_checks (FrameworkID_value (framework_id (framework s))) task
    then (Returns (with_framework_id (FrameworkID_value (framework_id (framework s))) task),
          s)
    else (Raises (NameError "mesos"), s).
Proof.
  unfold check_task, passes_checks, with_framework_id.
  cbv [mbind mret Py_bind Py_ret bind ret get].
  destruct task as [tid sid [[eid [f |]] |] [c |]]; simpl;
    try (rewrite bool_decide_eq_true_2
           by (split; intros; first [eexists; reflexivity | assumption]));
    try (rewrite bool_decide_eq_false_2
           by (intros [H1 H2];
               first [ destruct H1 as [? H]; [eexists; reflexivity | discriminate H]
                     | destruct H2 as [? H]; [eexists; reflexivity | discriminate H] ]));
    try reflexivity;
    destruct (String.eqb _ _); reflexivity.
Qed.

(** X17: what the sanity checks of a connected [launch_tasks] accept.  The
    checking loop returns exactly when every task has one of executor and
    command (not both, not neither) and no executor carries a framework id
    other than the framework's; the tasks then go on unchanged except that an
    executor without a framework id is given the framework's.  Otherwise
    the loop raises [NameError] out of [_local_lost].  The process is not
    changed either way. *)
Theorem sanity_checks_result (tasks : list TaskInfo) (s : t) :
  for_each_update tasks check_task s
  = if forallb (passes_checks (FrameworkID_value (framework_id (framework s)))) tasks
    then (Returns
            (with_framework_id (FrameworkID_value (framework_id (framework s))) <$> tasks),
          s)
    else (Raises (NameError "mesos"), s).
Proof.
  induction tasks as [| task tasks IH]; [reflexivity |].
  cbn [for_each_update forallb]. rewrite bind_run, check_task_result.
  destruct (passes_checks _ task); [| reflexivity].
  rewrite bind_run, IH. cbn [andb].
  destruct (forallb _ tasks); reflexivity.
Qed.

End SanityChecks.


Section RoundTrip.

Import SchedulerProcess.

Variable PID_from_string : string → option PID.

Lemma resource_offers_one (from_pid : PID) (offer : Offer) (str : string) (p : PID) (s : t) :
  connected s = true →
  aborted s = false →
  master s = Some from_pid →
  PID_from_string str = Some p →
  receive PID_from_string from_pid (ResourceOffersMessage [offer] [str]) s
  = (Returns tt,
     set_events (events s ++ [Callback (resource_offers_cb [offer])])
       (set_saved_offers (record_offer (saved_offers s) offer p) s)).
Proof.
  intros Hcon Hab Hm Hp. simpl. unfold resource_offers.
  rewrite ignore_if_disconnected_runs, ignore_if_aborted_runs by assumption.
  rewrite bind_run. cbv [get].
  rewrite bind_run, assert_master_known by (rewrite Hm; eauto).
  rewrite bind_run, valid_origin_master by exact Hm. cbn [negb].
  rewrite bind_run.
  rewrite (save_offers_parsed PID_from_string [offer] [str] [p] s)
    by (repeat constructor; exact Hp).
  reflexivity.
Qed.

Lemma lost_slave_cached (from_pid : PID) (sid : SlaveID) (p : PID) (s : t) :
  connected s = true →
  aborted s = false →
  master s = Some from_pid →
  saved_slaves s !! KStr (SlaveID_value sid) = Some p →
  receive PID_from_string from_pid (LostSlaveMessage sid) s
  = (Returns tt,
     set_events (events s ++ [Callback (slave_lost_cb sid)])
       (set_saved_slaves (delete (KStr (SlaveID_value sid)) (saved_slaves s)) s)).
Proof.
  intros Hcon Hab Hm Hp. simpl. unfold lost_slave.
  rewrite ignore_if_disconnected_runs, ignore_if_aborted_runs by assumption.
  rewrite bind_run. cbv [get].
  rewrite bind_run, assert_master_known by (rewrite Hm; eauto).
  rewrite bind_run, valid_origin_master by exact Hm. simpl.
  unfold pop_saved_slaves.
  cbv [mbind mret Py_bind Py_ret bind ret get camel_call emit modify].
  rewrite Hp. reflexivity.
Qed.

(** X18: from offer to lost slave.  At a connected process that is not
    aborted: an offer from the master on a slave whose address parses, then
    a launch of one command task on that slave against the offer, puts the
    slave's address into the slave cache, consumes the offer and sends the
    master the LaunchTasksMessage; a LostSlave message from the master for
    that slave then returns normally, removes the cache entry and calls
    [slave_lost].  (Without the launch the same LostSlave message raises.) *)
Theorem offer_launch_lost_round_trip (from_pid : PID) (offer : Offer) (str : string) (p : PID)
    (tid : TaskID) (cmd : CommandInfo) (s : t) :
  connected s = true →
  aborted s = false →
  master s = Some from_pid →
  PID_from_string str = Some p →
  saved_slaves
    (exec (launch_tasks [offer_id offer]
             [mkTaskInfo tid (offer_slave_id offer) None (Some cmd)] None)
       (exec (receive PID_from_string from_pid (ResourceOffersMessage [offer] [str])) s))
  !! KStr (SlaveID_value (offer_slave_id offer)) = Some p
  ∧ outcome (receive PID_from_string from_pid (LostSlaveMessage (offer_slave_id offer)))
      (exec (launch_tasks [offer_id offer]
               [mkTaskInfo tid (offer_slave_id offer) None (Some cmd)] None)
         (exec (receive PID_from_string from_pid (ResourceOffersMessage [offer] [str])) s))
    = Returns tt
  ∧ saved_slaves
      (exec (receive PID_from_string from_pid (LostSlaveMessage (offer_slave_id offer)))
         (exec (launch_tasks [offer_id offer]
                  [mkTaskInfo tid (offer_slave_id offer) None (Some cmd)] None)
            (exec (receive PID_from_string from_pid (ResourceOffersMessage [offer] [str])) s)))
    !! KStr (SlaveID_value (offer_slave_id offer)) = None
  ∧ saved_offers
      (exec (receive PID_from_string from_pid (LostSlaveMessage (offer_slave_id offer)))
         (exec (launch_tasks [offer_id offer]
                  [mkTaskInfo tid (offer_slave_id offer) None (Some cmd)] None)
            (exec (receive PID_from_string from_pid (ResourceOffersMessage [offer] [str])) s)))
    !! OfferID_value (offer_id offer) = None
  ∧ callbacks
      (events
         (exec (receive PID_from_string from_pid (LostSlaveMessage (offer_slave_id offer)))
            (exec (launch_tasks [offer_id offer]
                     [mkTaskInfo tid (offer_slave_id offer) None (Some cmd)] None)
               (exec (receive PID_from_string from_pid (ResourceOffersMessage [offer] [str]))
                  s))))
    = callbacks (events s)
      ++ [resource_offers_cb [offer]; slave_lost_cb (offer_slave_id offer)]
  ∧ sends
      (events
         (exec (receive PID_from_string from_pid (LostSlaveMessage (offer_slave_id offer)))
            (exec (launch_tasks [offer_id offer]
                     [mkTaskInfo tid (offer_slave_id offer) None (Some cmd)] None)
               (exec (receive PID_from_string from_pid (ResourceOffersMessage [offer] [str]))
                  s))))
    = sends (events s)
      ++ [(Some from_pid,
           LaunchTasksMessage (framework_id (framework s))
             [mkTaskInfo tid (offer_slave_id offer) None (Some cmd)]
             (mkFilters "") [offer_id offer])].
Proof.
  intros Hcon Hab Hm Hp.
  set (task := mkTaskInfo tid (offer_slave_id offer) None (Some cmd)).
  set (s1 := exec (receive PID_from_string from_pid (ResourceOffersMessage [offer] [str])) s).
  assert (Hs1 : s1 = set_events (events s ++ [Callback (resource_offers_cb [offer])])
                       (set_saved_offers (record_offer (saved_offers s) offer p) s)).
  { unfold s1, exec. rewrite (resource_offers_one from_pid offer str p s) by assumption.
    reflexivity. }
  assert (Hoffer : saved_offers s1 !! OfferID_value (offer_id offer)
                   = Some (<[SlaveID_value (offer_slave_id offer) := p]>
                             (default ∅ (saved_offers s !! OfferID_value (offer_id offer))))).
  { rewrite Hs1. simpl. unfold record_offer. apply lookup_insert_eq. }
  destruct (launch_tasks_one_offer (offer_id offer) [task] [task] None
              (<[SlaveID_value (offer_slave_id offer) := p]>
                 (default ∅ (saved_offers s !! OfferID_value (offer_id offer)))) s1)
    as (Hrun & Hcache & Hoff); [rewrite Hs1; exact Hcon | reflexivity | exact Hoffer |].
  set (s2 := exec (launch_tasks [offer_id offer] [task] None) s1) in *.
  assert (Hcached : saved_slaves s2 !! KStr (SlaveID_value (offer_slave_id offer)) = Some p).
  { rewrite Hcache. unfold promoted_all, promoted. simpl.
    rewrite lookup_insert_eq. apply lookup_insert_eq. }
  assert (Hs2 : same_but_tables (exec (consume_offer [task] (offer_id offer)) s1) s1)
    by apply consume_offer_step.
  destruct Hs2 as (Hsends & Hcbs & Hm2 & Hfw2 & Hcon2 & Hab2).
  assert (Hs2eq : s2 = exec (send (master s1)
                               (LaunchTasksMessage (framework_id (framework s1)) [task]
                                  (mkFilters "") [offer_id offer]))
                         (exec (consume_offer [task] (offer_id offer)) s1)).
  { unfold s2, exec at 1. rewrite Hrun. reflexivity. }
  assert (Hlost : receive PID_from_string from_pid (LostSlaveMessage (offer_slave_id offer)) s2
                  = (Returns tt,
                     set_events (events s2 ++ [Callback (slave_lost_cb (offer_slave_id offer))])
                       (set_saved_slaves
                          (delete (KStr (SlaveID_value (offer_slave_id offer)))
                             (saved_slaves s2)) s2))).
  { apply (lost_slave_cached from_pid (offer_slave_id offer) p s2); [| | | exact Hcached];
      rewrite Hs2eq; simpl; rewrite ?Hcon2, ?Hab2, ?Hm2, Hs1; simpl; assumption. }
  split; [exact Hcached |].
  unfold outcome, exec. rewrite Hlost. cbn [fst snd saved_slaves saved_offers events
    set_events set_saved_slaves].
  split; [reflexivity |]. split; [apply lookup_delete_eq |].
  split; [rewrite Hoff; apply lookup_delete_eq |].
  rewrite callbacks_app, sends_app. simpl. rewrite app_nil_r.
  rewrite Hs2eq. simpl. rewrite callbacks_app, sends_app. simpl.
  rewrite Hsends, Hcbs, Hs1. simpl.
  rewrite callbacks_app, sends_app, Hm. simpl.
  rewrite ?app_nil_r, <- ?app_assoc. split; reflexivity.
Qed.

End RoundTrip.


Section StopAndAbort.

Import PesosSchedulerDriver.

Variable from_uri : string → option Detector.
Variable scheduler_pid : PID.
Variable PID_from_string : string → option PID.
Variable message_hash : SlaveID → option Z.

(** X19: stopping a running driver.  [stop(failover)] on a running driver,
    followed by the process running the dispatched [stop], leaves the status
    STOPPED; without failover the process (not aborted) clears [connected],
    sets [failover] and sends the master an UnregisterFrameworkMessage with
    the framework id; with failover the process is left exactly as it was:
    still connected, nothing sent. *)
Theorem stop_unregisters_unless_failover (failover : bool) (d : t) (p : SchedulerProcess.t) :
  status d = Some DRIVER_RUNNING →
  scheduler_process d = Some p →
  SchedulerProcess.aborted p = false →
  status
    (steps from_uri scheduler_pid PID_from_string message_hash
       [by_driver (m_stop failover); by_process (SchedulerProcess.Stop failover)] d)
  = Some DRIVER_STOPPED
  ∧ scheduler_process
      (steps from_uri scheduler_pid PID_from_string message_hash
         [by_driver (m_stop failover); by_process (SchedulerProcess.Stop failover)] d)
    = Some
        (if failover then p
         else SchedulerProcess.set_events
                (SchedulerProcess.events p
                 ++ [Send (SchedulerProcess.master p)
                       (UnregisterFrameworkMessage
                          (framework_id (SchedulerProcess.framework p)))])
                (SchedulerProcess.set_failover true
                   (SchedulerProcess.set_connected false p))).
Proof.
  intros Hst Hp Hab.
  destruct d as [st proc det uri fw eff]; simpl in Hst, Hp; subst st proc.
  unfold steps. cbn [foldl step call].
  unfold exec at 2 4, stop.
  cbv [mbind mret Py_bind Py_ret bind ret get modify dispatch notify emit]. simpl.
  split; [reflexivity |]. f_equal.
  unfold exec, SchedulerProcess.stop.
  rewrite ignore_if_aborted_runs by exact Hab.
  destruct failover; simpl; [reflexivity |].
  destruct p; reflexivity.
Qed.

(** X20: abort, then stop.  [abort()] on a running driver sets the process's
    aborted flag at once and stores ABORTED.  The dispatched [abort] fails in
    the process when the runtime calls it (the guard's wrapper wants a sender
    argument), so [connected] is not cleared; and the [stop] dispatched by a
    following [stop(failover)] is dropped by the aborted guard.  In the end
    the status is STOPPED and the process differs from what it was only in
    the aborted flag and one log line: no UnregisterFrameworkMessage was
    sent. *)
Theorem abort_then_stop_never_unregisters (failover : bool) (d : t) (p : SchedulerProcess.t) :
  status d = Some DRIVER_RUNNING →
  scheduler_process d = Some p →
  status
    (steps from_uri scheduler_pid PID_from_string message_hash
       [by_driver m_abort; by_process (SchedulerProcess.Abort []);
        by_driver (m_stop failover); by_process (SchedulerProcess.Stop failover)] d)
  = Some DRIVER_STOPPED
  ∧ scheduler_process
      (steps from_uri scheduler_pid PID_from_string message_hash
         [by_driver m_abort; by_process (SchedulerProcess.Abort []);
          by_driver (m_stop failover); by_process (SchedulerProcess.Stop failover)] d)
    = Some
        (SchedulerProcess.set_events
           (SchedulerProcess.events p
            ++ [Log INFO
                  "Ignoring message from %s because the scheduler driver is aborted."])
           (SchedulerProcess.set_aborted true p))
  ∧ effects
      (steps from_uri scheduler_pid PID_from_string message_hash
         [by_driver m_abort; by_process (SchedulerProcess.Abort []);
          by_driver (m_stop failover); by_process (SchedulerProcess.Stop failover)] d)
    = effects d
      ++ [Dispatched (SchedulerProcess.Abort []); Notified;
          Dispatched (SchedulerProcess.Stop failover); Notified].
Proof.
  intros Hst Hp.
  destruct d as [st proc det uri fw eff]; simpl in Hst, Hp; subst st proc.
  unfold steps. cbn [foldl step call].
  unfold exec, abort, stop, SchedulerProcess.abort, SchedulerProcess.stop,
    SchedulerProcess.ignore_if_aborted.
  cbv [mbind mret Py_bind Py_ret bind ret get modify raise dispatch notify emit
       SchedulerProcess.log SchedulerProcess.emit]. simpl.
  rewrite <- !app_assoc. simpl. repeat split.
Qed.

End StopAndAbort.

Lemma stop_unregisters_unless_failover_witness :
  SchedulerProcess.sends
    (SchedulerProcess.events
       (default Scenario.registered
          (PesosSchedulerDriver.scheduler_process
             (PesosSchedulerDriver.steps Scenario.no_detector Scenario.scheduler_pid
                Scenario.parse Scenario.unhashable
                [ PesosSchedulerDriver.by_driver (PesosSchedulerDriver.m_stop false);
                  PesosSchedulerDriver.by_process (SchedulerProcess.Stop false) ]
                Scenario.running_driver))))
  = SchedulerProcess.sends (SchedulerProcess.events Scenario.registered)
    ++ [(Some Scenario.master_pid, UnregisterFrameworkMessage (mkFrameworkID "f-1"))].
Proof.
  rewrite (proj2 (stop_unregisters_unless_failover Scenario.no_detector
                    Scenario.scheduler_pid Scenario.parse Scenario.unhashable false
                    Scenario.running_driver Scenario.registered eq_refl eq_refl eq_refl)).
  vm_compute. reflexivity.
Defined.

Lemma abort_then_stop_never_unregisters_witness :
  SchedulerProcess.sends
    (SchedulerProcess.events
       (default Scenario.registered
          (PesosSchedulerDriver.scheduler_process
             (PesosSchedulerDriver.steps Scenario.no_detector Scenario.scheduler_pid
                Scenario.parse Scenario.unhashable
                [ PesosSchedulerDriver.by_driver PesosSchedulerDriver.m_abort;
                  PesosSchedulerDriver.by_process (SchedulerProcess.Abort []);
                  PesosSchedulerDriver.by_driver (PesosSchedulerDriver.m_stop false);
                  PesosSchedulerDriver.by_process (SchedulerProcess.Stop false) ]
                Scenario.running_driver))))
  = SchedulerProcess.sends (SchedulerProcess.events Scenario.registered).
Proof.
  rewrite (proj1 (proj2 (abort_then_stop_never_unregisters Scenario.no_detector
                           Scenario.scheduler_pid Scenario.parse Scenario.unhashable false
                           Scenario.running_driver Scenario.registered eq_refl eq_refl))).
  vm_compute. reflexivity.
Defined.


Lemma launch_tasks_consumes_offers_witness :
  outcome (SchedulerProcess.launch_tasks [Scenario.o1] [Scenario.t3] None) Scenario.offered
  = Returns tt
  ∧ SchedulerProcess.sends
      (SchedulerProcess.events
         (exec (SchedulerProcess.launch_tasks [Scenario.o1] [Scenario.t3] None)
            Scenario.offered))
    = SchedulerProcess.sends (SchedulerProcess.events Scenario.offered)
      ++ [(Some Scenario.master_pid,
           LaunchTasksMessage (mkFrameworkID "f-1")
             [mkTaskInfo (mkTaskID "t-3") Scenario.s1
                (Some (mkExecutorInfo Scenario.e1 (Some (mkFrameworkID "f-1")))) None]
             (mkFilters "") [Scenario.o1])].
Proof.
  destruct (launch_tasks_consumes_offers [Scenario.o1] [Scenario.t3]
              [mkTaskInfo (mkTaskID "t-3") Scenario.s1
                 (Some (mkExecutorInfo Scenario.e1 (Some (mkFrameworkID "f-1")))) None]
              None Scenario.offered eq_refl eq_refl) as (_ & Hgood & _).
  destruct Hgood as (Hout & _ & Hsends).
  { split; [apply NoDup_singleton |].
    apply Forall_cons. split; [| apply Forall_nil_2].
    eexists. vm_compute. reflexivity. }
  split; [exact Hout | exact Hsends].
Defined.

Lemma launch_tasks_promotes_offer_slaves_witness :
  SchedulerProcess.saved_slaves
    (exec (SchedulerProcess.launch_tasks [Scenario.o1] [Scenario.t1] None) Scenario.offered)
  !! KStr "s-1" = Some Scenario.slave_pid.
Proof.
  rewrite (launch_tasks_promotes_offer_slaves Scenario.o1 [Scenario.t1] [Scenario.t1] None
             {["s-1" := Scenario.slave_pid]} Scenario.offered "s-1");
    [| reflexivity | reflexivity | vm_compute; reflexivity].
  vm_compute. reflexivity.
Defined.

Lemma offer_launch_lost_round_trip_witness :
  SchedulerProcess.saved_slaves
    (exec (SchedulerProcess.receive Scenario.parse Scenario.master_pid
             (LostSlaveMessage Scenario.s1))
       (exec (SchedulerProcess.launch_tasks [Scenario.o1] [Scenario.t1] None)
          (exec (SchedulerProcess.receive Scenario.parse Scenario.master_pid
                   (ResourceOffersMessage [mkOffer Scenario.o1 Scenario.s1]
                      ["slave@10.0.0.2:5051"]))
             Scenario.registered)))
  !! KStr "s-1" = None.
Proof.
  exact (proj1 (proj2 (proj2
           (offer_launch_lost_round_trip Scenario.parse Scenario.master_pid
              (mkOffer Scenario.o1 Scenario.s1) "slave@10.0.0.2:5051" Scenario.slave_pid
              (mkTaskID "t-1") (mkCommandInfo "true") Scenario.registered
              eq_refl eq_refl eq_refl eq_refl)))).
Defined.


Section OfferTable.

Import SchedulerProcess.

Variable PID_from_string : string → option PID.

Lemma record_offer_other (table : gmap string (gmap string PID)) (offer : Offer) (p : PID)
    (key : string) :
  key ≠ OfferID_value (offer_id offer) →
  record_offer table offer p !! key = table !! key.
Proof. intros Hne. unfold record_offer. apply lookup_insert_ne. congruence. Qed.

Lemma record_offers_other (ops : list (Offer * PID)) (table : gmap string (gmap string PID))
    (key : string) :
  key ∉ (λ op, OfferID_value (offer_id op.1)) <$> ops →
  record_offers table ops !! key = table !! key.
Proof.
  revert table. induction ops as [| op ops IH]; intros table Hnin; [reflexivity |].
  unfold record_offers in *. cbn [foldl].
  rewrite fmap_cons in Hnin. apply not_elem_of_cons in Hnin as [Hne Hnin].
  rewrite IH by exact Hnin. apply record_offer_other, Hne.
Qed.

(** Recording further offers keeps the slaves an offer id already has. *)
Lemma record_offers_keeps (ops : list (Offer * PID)) (table : gmap string (gmap string PID))
    (oid sid : string) :
  (∃ slaves, table !! oid = Some slaves ∧ is_Some (slaves !! sid)) →
  ∃ slaves, record_offers table ops !! oid = Some slaves ∧ is_Some (slaves !! sid).
Proof.
  revert table. induction ops as [| op ops IH]; intros table Hhas; [exact Hhas |].
  unfold record_offers in *. cbn [foldl]. apply IH.
  destruct Hhas as (slaves & Hoid & Hsid). unfold record_offer.
  destruct (decide (OfferID_value (offer_id op.1) = oid)) as [<- | Hne].
  - rewrite lookup_insert_eq, Hoid. simpl. eexists. split; [reflexivity |].
    destruct (decide (SlaveID_value (offer_slave_id op.1) = sid)) as [<- | Hne].
    + rewrite lookup_insert_eq. eauto.
    + rewrite lookup_insert_ne by exact Hne. exact Hsid.
  - rewrite lookup_insert_ne by exact Hne. eauto.
Qed.

Lemma record_offers_has (ops : list (Offer * PID)) (table : gmap string (gmap string PID))
    (op : Offer * PID) :
  op ∈ ops →
  ∃ slaves,
    record_offers table ops !! OfferID_value (offer_id op.1) = Some slaves
    ∧ is_Some (slaves !! SlaveID_value (offer_slave_id op.1)).
Proof.
  revert table. induction ops as [| op' ops IH]; intros table Hin.
  - apply elem_of_nil in Hin as [].
  - apply elem_of_cons in Hin as [-> | Hin].
    + change (record_offers table (op' :: ops))
        with (record_offers (record_offer table op'.1 op'.2) ops).
      apply record_offers_keeps. unfold record_offer. rewrite lookup_insert_eq.
      eexists. split; [reflexivity |]. rewrite lookup_insert_eq. eauto.
    + change (record_offers table (op' :: ops))
        with (record_offers (record_offer table op'.1 op'.2) ops).
      apply IH, Hin.
Qed.

Lemma zip_fst_elem {A B} (xs : list A) (ys : list B) (x : A) :
  length xs = length ys → x ∈ xs → ∃ y, (x, y) ∈ zip xs ys.
Proof.
  revert ys. induction xs as [| x' xs IH]; intros [| y ys] Hlen Hin;
    try discriminate Hlen.
  - apply elem_of_nil in Hin as [].
  - apply elem_of_cons in Hin as [-> | Hin].
    + exists y. apply list_elem_of_here.
    + destruct (IH ys) as [y' Hy']; [simpl in Hlen; lia | exact Hin |].
      exists y'. apply list_elem_of_further, Hy'.
Qed.

Lemma zip_fst_fmap {A B C} (f : A → C) (xs : list A) (ys : list B) (c : C) :
  c ∈ (λ op : A * B, f op.1) <$> zip xs ys → c ∈ f <$> xs.
Proof.
  revert ys. induction xs as [| x xs IH]; intros [| y ys] Hin; simpl in *;
    try (apply elem_of_nil in Hin as []).
  apply elem_of_cons in Hin as [-> | Hin].
  - apply list_elem_of_here.
  - apply list_elem_of_further. eapply IH, Hin.
Qed.

(** X21: what a ResourceOffers message leaves in the offer table.  After a
    message that passes the guards and whose pids, up to the common length,
    parse: every offer of the common-length prefix is in the table with an
    entry for its slave (so a launch against it finds it), and every offer id
    that does not occur in the message has the entry it had before. *)
Theorem resource_offers_records_offers (from_pid : PID) (offers : list Offer)
    (pids : list string) (ps : list PID) (s : t) :
  connected s = true →
  aborted s = false →
  master s = Some from_pid →
  Forall2 (λ str p, PID_from_string str = Some p)
          (take (Nat.min (length offers) (length pids)) pids) ps →
  (∀ offer,
      offer ∈ take (Nat.min (length offers) (length pids)) offers →
      ∃ slaves,
        saved_offers
          (exec (receive PID_from_string from_pid (ResourceOffersMessage offers pids)) s)
        !! OfferID_value (offer_id offer) = Some slaves
        ∧ is_Some (slaves !! SlaveID_value (offer_slave_id offer)))
  ∧ (∀ key,
        key ∉ (λ offer, OfferID_value (offer_id offer)) <$> offers →
        saved_offers
          (exec (receive PID_from_string from_pid (ResourceOffersMessage offers pids)) s)
        !! key = saved_offers s !! key).
Proof.
  intros Hcon Hab Hm Hparse.
  assert (Htable :
    saved_offers
      (exec (receive PID_from_string from_pid (ResourceOffersMessage offers pids)) s)
    = record_offers (saved_offers s)
        (zip (take (Nat.min (length offers) (length pids)) offers) ps)).
  { unfold exec. cbn [receive]. unfold resource_offers.
    rewrite ignore_if_disconnected_runs, ignore_if_aborted_runs by assumption.
    rewrite bind_run. cbv [get].
    rewrite bind_run, assert_master_known by (rewrite Hm; eauto).
    rewrite bind_run, valid_origin_master by exact Hm. cbn [negb].
    rewrite bind_run, zip_take_min.
    rewrite (save_offers_parsed PID_from_string _ _ _ s Hparse). reflexivity. }
  rewrite Htable. split.
  - intros offer Hin.
    destruct (zip_fst_elem (take (Nat.min (length offers) (length pids)) offers) ps offer)
      as [p Hp]; [| exact Hin |].
    { rewrite <- (Forall2_length _ _ _ Hparse), !length_take. lia. }
    apply (record_offers_has _ (saved_offers s) (offer, p) Hp).
  - intros key Hnin. apply record_offers_other. intros Hin. apply Hnin.
    apply (zip_fst_fmap (λ offer, OfferID_value (offer_id offer))) in Hin.
    apply list_elem_of_fmap in Hin as (offer & -> & Hin).
    apply list_elem_of_fmap. exists offer. split; [reflexivity |].
    eapply subseteq_take, Hin.
Qed.

End OfferTable.

Lemma resource_offers_records_offers_witness :
  ∃ slaves,
    SchedulerProcess.saved_offers
      (exec (SchedulerProcess.receive Scenario.parse Scenario.master_pid
               (ResourceOffersMessage
                  [mkOffer Scenario.o1 Scenario.s1; mkOffer Scenario.o2 Scenario.s2]
                  ["slave@10.0.0.2:5051"]))
         Scenario.registered)
    !! "o-1" = Some slaves
    ∧ is_Some (slaves !! "s-1").
Proof.
  apply (proj1 (resource_offers_records_offers Scenario.parse Scenario.master_pid
                  [mkOffer Scenario.o1 Scenario.s1; mkOffer Scenario.o2 Scenario.s2]
                  ["slave@10.0.0.2:5051"] [Scenario.slave_pid] Scenario.registered
                  eq_refl eq_refl eq_refl
                  ltac:(repeat constructor)) (mkOffer Scenario.o1 Scenario.s1)).
  apply list_elem_of_here.
Defined.

Section FirstRegistration.

Import PesosSchedulerDriver.

Variable from_uri : string → option Detector.
Variable scheduler_pid : PID.
Variable PID_from_string : string → option PID.
Variable message_hash : SlaveID → option Z.

(** X22: the first message of a started driver.  When [start] succeeds on a
    driver that was not started, it stores RUNNING and spawns a process that
    is disconnected, not aborted and has empty tables; when the detector
    then reports a master, the first thing the process sends it is a
    RegisterFrameworkMessage if the framework's id is empty, and otherwise a
    ReregisterFrameworkMessage with failover set. *)
Theorem first_registration_after_start (det : Detector) (m : PID) (d : t) :
  status d = Some DRIVER_NOT_STARTED →
  scheduler_process d = None →
  from_uri (master_uri d) = Some det →
  scheduler_process (exec (start from_uri scheduler_pid) d)
  = Some (SchedulerProcess.init scheduler_pid (framework d))
  ∧ status (exec (start from_uri scheduler_pid) d) = Some DRIVER_RUNNING
  ∧ ∃ p,
      scheduler_process
        (steps from_uri scheduler_pid PID_from_string message_hash
           [by_driver m_start;
            by_process (SchedulerProcess.Detected (SchedulerProcess.resolved (Some m)))] d)
      = Some p
      ∧ SchedulerProcess.sends (SchedulerProcess.events p)
        = [(Some m,
            if String.eqb (FrameworkID_value (framework_id (framework d))) ""
            then RegisterFrameworkMessage (framework d)
            else ReregisterFrameworkMessage (framework d) true)]
      ∧ SchedulerProcess.callbacks (SchedulerProcess.events p) = [].
Proof.
  intros Hst Hproc Hdet.
  destruct d as [st proc dt uri fw eff]; simpl in Hst, Hproc, Hdet; subst st proc.
  unfold steps. cbn [foldl step call].
  unfold exec, start.
  cbv [mbind mret Py_bind Py_ret bind ret get modify raise assert emit]. simpl.
  rewrite Hdet. simpl. split; [reflexivity |]. split; [reflexivity |].
  eexists. split; [reflexivity |].
  unfold SchedulerProcess.detected, SchedulerProcess.ignore_if_aborted,
    SchedulerProcess._do_registration, SchedulerProcess.init.
  cbv [mbind mret Py_bind Py_ret bind ret get modify SchedulerProcess.log
       SchedulerProcess.send SchedulerProcess.camel_call SchedulerProcess.emit]. simpl.
  unfold framework_id. destruct fw as [[[v] |] user host]; simpl.
  - destruct (String.eqb v ""); split; reflexivity.
  - split; reflexivity.
Qed.

End FirstRegistration.

Lemma first_registration_after_start_witness :
  ∃ p,
    PesosSchedulerDriver.scheduler_process
      (PesosSchedulerDriver.steps (λ uri, Some (PesosSchedulerDriver.detector_for uri))
         Scenario.scheduler_pid Scenario.parse Scenario.unhashable
         [ PesosSchedulerDriver.by_driver PesosSchedulerDriver.m_start;
           PesosSchedulerDriver.by_process
             (SchedulerProcess.Detected (SchedulerProcess.resolved (Some Scenario.master_pid)))
         ]
         Scenario.fresh_driver)
    = Some p
    ∧ SchedulerProcess.sends (SchedulerProcess.events p)
      = [(Some Scenario.master_pid,
          RegisterFrameworkMessage (mkFrameworkInfo None "user" "host.example"))]
    ∧ SchedulerProcess.callbacks (SchedulerProcess.events p) = [].
Proof.
  exact (proj2 (proj2
           (first_registration_after_start
              (λ uri, Some (PesosSchedulerDriver.detector_for uri)) Scenario.scheduler_pid
              Scenario.parse Scenario.unhashable
              (PesosSchedulerDriver.detector_for "zk://bad") Scenario.master_pid
              Scenario.fresh_driver eq_refl eq_refl eq_refl))).
Defined.

Section Run.

Import PesosSchedulerDriver.

Variable from_uri : string → option Detector.
Variable scheduler_pid : PID.

(** X23: [run] on a driver that was not started.  When the detector can be
    built, [run] starts the driver (status RUNNING, a fresh process spawned)
    and then waits in [join] for another thread to stop or abort it; when the
    detector cannot be built, [run] returns at once, and because it stores
    what [start] returned, it returns [None] and leaves the status [None]
    (not ABORTED), with no process. *)
Theorem run_on_fresh_driver (d : t) :
  status d = Some DRIVER_NOT_STARTED →
  scheduler_process d = None →
  match from_uri (master_uri d) with
  | Some det =>
      outcome (run from_uri scheduler_pid) d = Blocks
      ∧ status (exec (run from_uri scheduler_pid) d) = Some DRIVER_RUNNING
      ∧ scheduler_process (exec (run from_uri scheduler_pid) d)
        = Some (SchedulerProcess.init scheduler_pid (framework d))
      ∧ effects (exec (run from_uri scheduler_pid) d) = effects d ++ [Spawned]
  | None =>
      outcome (run from_uri scheduler_pid) d = Returns None
      ∧ status (exec (run from_uri scheduler_pid) d) = None
      ∧ scheduler_process (exec (run from_uri scheduler_pid) d) = None
  end.
Proof.
  intros Hst Hproc.
  destruct d as [st proc dt uri fw eff]; simpl in Hst, Hproc; subst st proc.
  unfold exec, outcome, run, start, join.
  cbv [mbind mret Py_bind Py_ret bind ret get modify raise assert emit]. simpl.
  destruct (from_uri uri); simpl; repeat split.
Qed.

End Run.

Lemma run_on_fresh_driver_witness :
  outcome (PesosSchedulerDriver.run Scenario.no_detector Scenario.scheduler_pid)
    Scenario.fresh_driver
  = Returns None
  ∧ PesosSchedulerDriver.status
      (exec (PesosSchedulerDriver.run Scenario.no_detector Scenario.scheduler_pid)
         Scenario.fresh_driver)
    = None.
Proof.
  pose proof (run_on_fresh_driver Scenario.no_detector Scenario.scheduler_pid
                Scenario.fresh_driver eq_refl eq_refl) as (Hout & Hst & _).
  split; [exact Hout | exact Hst].
Defined.
